(** * Wickrama Hardware pickup system: order lifecycle and recycle bin

    A shallow embedding of the request handlers of the pickup server
    (the extended server with the recycle bin, and the original
    [wickramaerp/server.js], whose create / status / approve / search
    handlers are the same code) together with the properties of the order
    lifecycle and of the recycle bin.

    Modelling conventions.
    - The two JSON documents [orders.json] and [deleted_orders.json] are
      JavaScript arrays of objects: they are lists of [order] records, in
      file order, duplicates allowed.  Every handler re-reads the file,
      mutates the array and rewrites it; that is explicit state passing
      over [State].
    - A request-body value is a string or is absent ([undefined]); it is an
      [option string].  A field set from an absent value is dropped by
      [JSON.stringify], so an absent field is [None] as well.
    - [new Date()] is an argument [now] of the handler, in milliseconds
      since the epoch.  A timestamp stored by [toISOString()] is kept as
      that number.  The readings of the clock within one request are taken
      at one instant; no statement below rests on two of them being equal.
    - Local time, which the cleanup uses to step back seven calendar days,
      is given by the time zone of the host, a [timezone].
    - Strings are byte strings; [toLowerCase] acts on the ASCII letters.
    - The exports directory is a map from file names to file contents:
      writing a file replaces the file of that name.  File-system failures
      are not modelled, except for the write of an export snapshot, whose
      outcome is the argument [disk_ok]. *)

From Stdlib Require Import ZArith Lia Ascii.
From stdpp Require Import base list strings pretty gmap.

Local Open Scope Z_scope.

(** ** JavaScript primitives used by the handlers *)

Module Js.

(** Truthiness of a value that is a string or [undefined]. *)
Definition truthy (v : option string) : bool :=
  match v with
  | Some s => if decide (s = "") then false else true
  | None => false
  end.

(** [v || d] for a string literal [d]. *)
Definition or_default (v : option string) (d : string) : string :=
  match v with
  | Some s => if decide (s = "") then d else s
  | None => d
  end.

(** [v || d] where the result may stay a plain value. *)
Definition or_value (v : option string) (d : string) : option string :=
  Some (or_default v d).

(** A value spliced into a template literal. *)
Definition show (v : option string) : string :=
  match v with
  | Some s => s
  | None => "undefined"
  end.

Definition is_upper (c : ascii) : bool :=
  let n := nat_of_ascii c in (Nat.leb 65 n && Nat.leb n 90)%bool.

Definition lower_char (c : ascii) : ascii :=
  if is_upper c then ascii_of_nat (nat_of_ascii c + 32) else c.

Fixpoint toLowerCase (s : string) : string :=
  match s with
  | EmptyString => EmptyString
  | String c s' => String (lower_char c) (toLowerCase s')
  end.

(** [s.startsWith(q)] *)
Fixpoint startsWith (s q : string) {struct q} : bool :=
  match q, s with
  | EmptyString, _ => true
  | String _ _, EmptyString => false
  | String b q', String a s' =>
      if decide (a = b) then startsWith s' q' else false
  end.

(** [s.includes(q)] *)
Fixpoint includes (s q : string) : bool :=
  if startsWith s q then true
  else match s with
       | EmptyString => false
       | String _ s' => includes s' q
       end.

Definition is_digit (c : ascii) : bool :=
  let n := nat_of_ascii c in (Nat.leb 48 n && Nat.leb n 57)%bool.

(** [s.replace(/\D/g, '')] *)
Fixpoint digits_only (s : string) : string :=
  match s with
  | EmptyString => EmptyString
  | String c s' =>
      if is_digit c then String c (digits_only s') else digits_only s'
  end.

Fixpoint repeat_char (c : ascii) (n : nat) : string :=
  match n with
  | O => EmptyString
  | S n' => String c (repeat_char c n')
  end.

(** [s.padStart(n, c)] for a one-character filler. *)
Definition padStart (s : string) (n : nat) (c : ascii) : string :=
  repeat_char c (n - String.length s) +:+ s.

(** [String(n)] for a non-negative integer. *)
Definition String_of_nat (n : nat) : string := pretty n.

End Js.

(** ** Data model *)

Record line_item := { sku : string; qty : Z }.

Record approval := {
  a_staff : option string;
  a_timestamp : Z
}.

Record history_entry := {
  h_status : option string;
  h_timestamp : Z;
  h_staff : option string
}.

(** An order object.  The last three fields only exist on the objects of
    the recycle bin. *)
Record order := {
  order_number : string;
  customer_name : option string;
  customer_phone : option string;
  items : option (list line_item);
  payment_method : option string;
  invoice_number : string;
  status : option string;
  created_at : Z;
  created_by : option string;
  approvals : list approval;
  status_history : list history_entry;
  deleted_at : option Z;
  deleted_by : option string;
  original_status : option string
}.

Record audit_entry := {
  au_timestamp : Z;
  au_action : string;
  au_order_id : string;
  au_staff : string;
  au_details : string
}.

(** The content of a snapshot written to the exports directory. *)
Record export_file := {
  ex_order : order;
  ex_exported_at : Z;
  ex_export_reason : string
}.

Record State := {
  orders : list order;
  deletedOrders : list order;
  auditLog : list audit_entry;
  exportsDir : gmap string export_file
}.

Definition initial_state : State :=
  {| orders := []; deletedOrders := []; auditLog := []; exportsDir := ∅ |}.

(** What a handler sends back. *)
Inductive response :=
| RCreated (order_number : string)
| RSuccess
| RApprovals (count : nat)
| RRecycleBinCount (count : nat)
| RExportedTo (filename : option string)
| ROrders (found : list order)
| RNotFound
| RAlreadyApproved
| RServerError.

(** Field updates on an order object. *)
Definition set_status (v : option string) (o : order) : order :=
  {| order_number := order_number o; customer_name := customer_name o;
     customer_phone := customer_phone o; items := items o;
     payment_method := payment_method o; invoice_number := invoice_number o;
     status := v; created_at := created_at o; created_by := created_by o;
     approvals := approvals o; status_history := status_history o;
     deleted_at := deleted_at o; deleted_by := deleted_by o;
     original_status := original_status o |}.

Definition set_invoice_number (v : string) (o : order) : order :=
  {| order_number := order_number o; customer_name := customer_name o;
     customer_phone := customer_phone o; items := items o;
     payment_method := payment_method o; invoice_number := v;
     status := status o; created_at := created_at o; created_by := created_by o;
     approvals := approvals o; status_history := status_history o;
     deleted_at := deleted_at o; deleted_by := deleted_by o;
     original_status := original_status o |}.

Definition push_approval (a : approval) (o : order) : order :=
  {| order_number := order_number o; customer_name := customer_name o;
     customer_phone := customer_phone o; items := items o;
     payment_method := payment_method o; invoice_number := invoice_number o;
     status := status o; created_at := created_at o; created_by := created_by o;
     approvals := approvals o ++ [a]; status_history := status_history o;
     deleted_at := deleted_at o; deleted_by := deleted_by o;
     original_status := original_status o |}.

Definition push_history (h : history_entry) (o : order) : order :=
  {| order_number := order_number o; customer_name := customer_name o;
     customer_phone := customer_phone o; items := items o;
     payment_method := payment_method o; invoice_number := invoice_number o;
     status := status o; created_at := created_at o; created_by := created_by o;
     approvals := approvals o; status_history := status_history o ++ [h];
     deleted_at := deleted_at o; deleted_by := deleted_by o;
     original_status := original_status o |}.

Definition set_deletion (at_ : option Z) (by_ orig : option string) (o : order) : order :=
  {| order_number := order_number o; customer_name := customer_name o;
     customer_phone := customer_phone o; items := items o;
     payment_method := payment_method o; invoice_number := invoice_number o;
     status := status o; created_at := created_at o; created_by := created_by o;
     approvals := approvals o; status_history := status_history o;
     deleted_at := at_; deleted_by := by_; original_status := orig |}.

(** ** Storage helpers *)

Definition saveOrders (os : list order) (st : State) : State :=
  {| orders := os; deletedOrders := deletedOrders st;
     auditLog := auditLog st; exportsDir := exportsDir st |}.

Definition saveDeletedOrders (ds : list order) (st : State) : State :=
  {| orders := orders st; deletedOrders := ds;
     auditLog := auditLog st; exportsDir := exportsDir st |}.

Definition logAudit (now : Z) (action orderId staffName details : string)
    (st : State) : State :=
  {| orders := orders st; deletedOrders := deletedOrders st;
     auditLog := auditLog st ++
       [{| au_timestamp := now; au_action := action; au_order_id := orderId;
           au_staff := staffName; au_details := details |}];
     exportsDir := exportsDir st |}.

(** The text of a timestamp inside a file name (the ISO text with its
    colons and dots replaced); rendered here as the decimal count. *)
Definition stamp (now : Z) : string := pretty now.

Definition exportFilename (now : Z) (o : order) : string :=
  "order-" +:+ order_number o +:+ "-" +:+ stamp now +:+ ".json".

(** The file written for an order: the order, [exported_at] and
    [export_reason]. *)
Definition exportData (now : Z) (o : order) : export_file :=
  {| ex_order := o; ex_exported_at := now;
     ex_export_reason := "permanent_deletion" |}.

(** [fs.writeFileSync(filepath, ...)] creates the file or replaces the
    file of that name. *)
Definition exportOrderData (now : Z) (disk_ok : bool) (o : order)
    (st : State) : State * option string :=
  if disk_ok then
    ({| orders := orders st; deletedOrders := deletedOrders st;
        auditLog := auditLog st;
        exportsDir := <[exportFilename now o := exportData now o]> (exportsDir st) |},
     Some (exportFilename now o))
  else (st, None).

(** [orders.findIndex(o => o.order_number === orderNumber)], with the
    element found. *)
Definition findIndex (orderNumber : string) (os : list order) : option (nat * order) :=
  list_find (λ o, order_number o = orderNumber) os.

Definition generateOrderNumber (st : State) : string :=
  let sequence := (length (orders st) + 1)%nat in
  let paddedSequence := Js.padStart (Js.String_of_nat sequence) 3 "0" in
  "WHS-" +:+ paddedSequence.

(** ** Order lifecycle handlers *)

(** [POST /api/orders] *)
Definition createOrder (now : Z) (customerName customerPhone : option string)
    (items0 : option (list line_item)) (paymentMethod staffName : option string)
    (st : State) : State * response :=
  let orderNumber := generateOrderNumber st in
  let newOrder :=
    {| order_number := orderNumber;
       customer_name := customerName;
       customer_phone := customerPhone;
       items := items0;
       payment_method := paymentMethod;
       invoice_number := "";
       status := Some "received";
       created_at := now;
       created_by := staffName;
       approvals := [];
       status_history :=
         [{| h_status := Some "received"; h_timestamp := now; h_staff := staffName |}];
       deleted_at := None; deleted_by := None; original_status := None |} in
  let st1 := saveOrders (orders st ++ [newOrder]) st in
  (logAudit now "ORDER_CREATED" orderNumber (Js.show staffName)
     ("Customer: " +:+ Js.show customerName) st1,
   RCreated orderNumber).

(** The original server numbers the orders by date: [day] and [month] are
    [getDate()] and [getMonth() + 1] of the current local date.  Its other
    handlers are those of this file, without the recycle bin. *)
Module Original.

Definition generateOrderNumber (day month : nat) (st : State) : string :=
  let dateCode :=
    Js.String_of_nat day +:+ Js.padStart (Js.String_of_nat month) 2 "0" in
  let todayCode := "WHS-" +:+ dateCode in
  let todayOrders :=
    filter (λ o, Js.startsWith (order_number o) todayCode) (orders st) in
  let sequence :=
    Js.padStart (Js.String_of_nat (length todayOrders + 1)) 2 "0" in
  "WHS-" +:+ dateCode +:+ "-" +:+ sequence.

Definition createOrder (now : Z) (day month : nat)
    (customerName customerPhone : option string)
    (items0 : option (list line_item)) (paymentMethod staffName : option string)
    (st : State) : State * response :=
  let orderNumber := generateOrderNumber day month st in
  let newOrder :=
    {| order_number := orderNumber;
       customer_name := customerName;
       customer_phone := customerPhone;
       items := items0;
       payment_method := paymentMethod;
       invoice_number := "";
       status := Some "received";
       created_at := now;
       created_by := staffName;
       approvals := [];
       status_history :=
         [{| h_status := Some "received"; h_timestamp := now; h_staff := staffName |}];
       deleted_at := None; deleted_by := None; original_status := None |} in
  let st1 := saveOrders (orders st ++ [newOrder]) st in
  (logAudit now "ORDER_CREATED" orderNumber (Js.show staffName)
     ("Customer: " +:+ Js.show customerName) st1,
   RCreated orderNumber).

End Original.

(** [PUT /api/orders/:orderNumber/status] *)
Definition updateStatus (now : Z) (orderNumber : string)
    (status0 staffName invoiceNumber : option string)
    (st : State) : State * response :=
  match findIndex orderNumber (orders st) with
  | None => (st, RNotFound)
  | Some (orderIndex, order0) =>
      let order1 := set_status status0 order0 in
      let order2 :=
        match invoiceNumber with
        | Some v =>
            if Js.truthy invoiceNumber then set_invoice_number v order1 else order1
        | None => order1
        end in
      let order3 :=
        push_history
          {| h_status := status0; h_timestamp := now; h_staff := staffName |}
          order2 in
      let st1 := saveOrders (<[orderIndex := order3]> (orders st)) st in
      (logAudit now "STATUS_UPDATE" orderNumber (Js.show staffName)
         ("Status: " +:+ Js.show status0) st1,
       RSuccess)
  end.

(** The body of the approve handler once the order object is at hand:
    [None] when the staff member has approved already. *)
Definition approve_order (now : Z) (staffName : option string) (o : order) : option order :=
  match list_find (λ a, a_staff a = staffName) (approvals o) with
  | Some _ => None
  | None =>
      let order1 :=
        push_approval {| a_staff := staffName; a_timestamp := now |} o in
      Some
        (if bool_decide (3 ≤ length (approvals order1))%nat
            && bool_decide (status order1 = Some "received")
         then push_history
                {| h_status := Some "approved"; h_timestamp := now;
                   h_staff := Some "SYSTEM" |}
                (set_status (Some "approved") order1)
         else order1)
  end.

(** [PUT /api/orders/:orderNumber/approve] *)
Definition addApproval (now : Z) (orderNumber : string) (staffName : option string)
    (st : State) : State * response :=
  match findIndex orderNumber (orders st) with
  | None => (st, RNotFound)
  | Some (orderIndex, order0) =>
      match approve_order now staffName order0 with
      | None => (st, RAlreadyApproved)
      | Some order1 =>
          let st1 := saveOrders (<[orderIndex := order1]> (orders st)) st in
          (logAudit now "APPROVAL_ADDED" orderNumber (Js.show staffName)
             ("Approval " +:+ Js.String_of_nat (length (approvals order1)) +:+ "/3")
             st1,
           RApprovals (length (approvals order1)))
      end
  end.

(** The predicate of the filter of [GET /api/search]; [None] when reading a
    method of an absent field throws. *)
Definition search_match (q : string) (o : order) : option bool :=
  match customer_name o with
  | None => None
  | Some name =>
      if Js.includes (Js.toLowerCase name) (Js.toLowerCase q) then Some true
      else if Js.includes (Js.toLowerCase (order_number o)) (Js.toLowerCase q)
      then Some true
      else match customer_phone o with
           | None => None
           | Some phone => Some (Js.includes phone q)
           end
  end.

(** [Array.prototype.filter] with a callback that may throw. *)
Fixpoint filter_throwing {A} (f : A → option bool) (l : list A) : option (list A) :=
  match l with
  | [] => Some []
  | x :: l' =>
      match f x with
      | None => None
      | Some b =>
          match filter_throwing f l' with
          | None => None
          | Some r => Some (if b then x :: r else r)
          end
      end
  end.

(** [GET /api/search] *)
Definition searchOrders (q status0 : option string) (st : State) : response :=
  let filtered :=
    if Js.truthy q
    then filter_throwing (search_match (Js.show q)) (orders st)
    else Some (orders st) in
  match filtered with
  | None => RServerError
  | Some os =>
      ROrders
        (if Js.truthy status0 && negb (bool_decide (status0 = Some "all"))
         then filter (λ o, status o = status0) os
         else os)
  end.

(** The predicate of the [find] of [GET /api/customer-lookup], on the
    trimmed query. *)
Definition customerLookupMatch (query : string) (o : order) : option bool :=
  if bool_decide (Js.toLowerCase (order_number o) = Js.toLowerCase query)
  then Some true
  else match customer_phone o with
       | None => None
       | Some phone =>
           Some (Js.includes phone query
                 || Js.includes (Js.digits_only phone) (Js.digits_only query))
       end.

(** ** Recycle bin handlers *)

(** [DELETE /api/orders/:orderNumber] *)
Definition softDelete (now : Z) (orderNumber : string) (staffName : option string)
    (st : State) : State * response :=
  match findIndex orderNumber (orders st) with
  | None => (st, RNotFound)
  | Some (orderIndex, order0) =>
      let orders1 := delete orderIndex (orders st) in
      let orderToDelete :=
        set_status (Some "deleted")
          (set_deletion (Some now) (Some (Js.or_default staffName "manager"))
             (status order0) order0) in
      let deletedOrders1 := deletedOrders st ++ [orderToDelete] in
      let st1 := saveDeletedOrders deletedOrders1 (saveOrders orders1 st) in
      (logAudit now "ORDER_MOVED_TO_RECYCLE" orderNumber
         (Js.or_default staffName "manager")
         ("Order moved to recycle bin: " +:+ Js.show (customer_name order0)) st1,
       RRecycleBinCount (length deletedOrders1))
  end.

(** [POST /api/orders/:orderNumber/restore] *)
Definition restore (now : Z) (orderNumber : string) (staffName : option string)
    (st : State) : State * response :=
  match findIndex orderNumber (deletedOrders st) with
  | None => (st, RNotFound)
  | Some (orderIndex, order0) =>
      let deletedOrders1 := delete orderIndex (deletedOrders st) in
      let orderToRestore :=
        set_deletion None None None
          (set_status (Js.or_value (original_status order0) "received") order0) in
      let orders1 := orders st ++ [orderToRestore] in
      let st1 := saveDeletedOrders deletedOrders1 (saveOrders orders1 st) in
      (logAudit now "ORDER_RESTORED" orderNumber
         (Js.or_default staffName "manager")
         ("Order restored from recycle bin: " +:+ Js.show (customer_name order0)) st1,
       RSuccess)
  end.

(** [DELETE /api/deleted-orders/:orderNumber] *)
Definition permanentlyDelete (now : Z) (disk_ok : bool) (orderNumber : string)
    (staffName : option string) (st : State) : State * response :=
  match findIndex orderNumber (deletedOrders st) with
  | None => (st, RNotFound)
  | Some (orderIndex, order0) =>
      let deletedOrders1 := delete orderIndex (deletedOrders st) in
      let '(st1, exportFilename) := exportOrderData now disk_ok order0 st in
      let st2 := saveDeletedOrders deletedOrders1 st1 in
      (logAudit now "ORDER_PERMANENTLY_DELETED" orderNumber
         (Js.or_default staffName "manager")
         ("Order permanently deleted. Exported to: "
            +:+ Js.or_default exportFilename "export failed") st2,
       RExportedTo exportFilename)
  end.

Definition DAY_MS : Z := 1000 * 60 * 60 * 24.

(** [deletedAt > sevenDaysAgo]; a missing date compares false. *)
Definition deleted_after (sevenDaysAgo : Z) (o : order) : bool :=
  match deleted_at o with
  | Some deletedAt => sevenDaysAgo <? deletedAt
  | None => false
  end.

(** The local state of the loop of the cleanup. *)
Record cleanup_acc := {
  acc_state : State;
  toKeep : list order;
  cleanedCount : nat
}.

(** One iteration of the [forEach] of the cleanup. *)
Definition cleanup_visit (now : Z) (disk_ok : bool) (sevenDaysAgo : Z)
    (acc : cleanup_acc) (o : order) : cleanup_acc :=
  if deleted_after sevenDaysAgo o
  then {| acc_state := acc_state acc; toKeep := toKeep acc ++ [o];
          cleanedCount := cleanedCount acc |}
  else
    let st1 := (exportOrderData now disk_ok o (acc_state acc)).1 in
    {| acc_state := logAudit now "AUTO_CLEANUP" (order_number o) "SYSTEM"
                      "7-day auto cleanup" st1;
       toKeep := toKeep acc;
       cleanedCount := S (cleanedCount acc) |}.

(** The time zone of the host: [LocalTime] turns an instant into the local
    time value whose fields [getDate()] and the like read, [UTC] turns a
    local time value back into an instant. *)
Record timezone := {
  LocalTime : Z → Z;
  UTC : Z → Z
}.

(** [d = new Date(); d.setDate(d.getDate() - 7)]: the local date moves back
    by seven days, the local time of day stays. *)
Definition sevenDaysBefore (tz : timezone) (now : Z) : Z :=
  UTC tz (LocalTime tz now - 7 * DAY_MS).

(** A host on universal time. *)
Definition utc_zone : timezone :=
  {| LocalTime := λ t, t; UTC := λ t, t |}.


(** [autoCleanupDeletedOrders()] *)
Definition autoCleanupDeletedOrders (tz : timezone) (now : Z) (disk_ok : bool)
    (st : State) : State :=
  let sevenDaysAgo := sevenDaysBefore tz now in
  let acc :=
    foldl (cleanup_visit now disk_ok sevenDaysAgo)
      {| acc_state := st; toKeep := []; cleanedCount := 0 |}
      (deletedOrders st) in
  if bool_decide (0 < cleanedCount acc)%nat
  then saveDeletedOrders (toKeep acc) (acc_state acc)
  else acc_state acc.

(** ** The server as a transition system *)

(** What a firing of the cleanup timer finds on the host: its time zone,
    and whether the exports directory can be written. *)
Record cleanup_host := {
  host_zone : timezone;
  host_disk_ok : bool
}.

Inductive request :=
| CreateOrder (customerName customerPhone : option string)
    (items0 : option (list line_item)) (paymentMethod staffName : option string)
| UpdateStatus (orderNumber : string) (status0 staffName invoiceNumber : option string)
| AddApproval (orderNumber : string) (staffName : option string)
| SoftDelete (orderNumber : string) (staffName : option string)
| Restore (orderNumber : string) (staffName : option string)
| PermanentlyDelete (disk_ok : bool) (orderNumber : string) (staffName : option string)
| AutoCleanup (host : cleanup_host).

(** One request, or one firing of the cleanup timer (which answers
    nothing; [RSuccess] stands for its completion). *)
Definition handle (now : Z) (r : request) (st : State) : State * response :=
  match r with
  | CreateOrder n p i m s => createOrder now n p i m s st
  | UpdateStatus k s staff inv => updateStatus now k s staff inv st
  | AddApproval k s => addApproval now k s st
  | SoftDelete k s => softDelete now k s st
  | Restore k s => restore now k s st
  | PermanentlyDelete ok k s => permanentlyDelete now ok k s st
  | AutoCleanup host =>
      (autoCleanupDeletedOrders (host_zone host) now (host_disk_ok host) st,
       RSuccess)
  end.

(** The state after a sequence of timed requests. *)
Fixpoint run (trace : list (Z * request)) (st : State) : State :=
  match trace with
  | [] => st
  | (now, r) :: trace' => run trace' (handle now r st).1
  end.

Definition order_numbers (os : list order) : list string := order_number <$> os.

(** ** Vocabulary of the properties *)

Definition has_approved (staffName : option string) (o : order) : Prop :=
  ∃ a, a ∈ approvals o ∧ a_staff a = staffName.

(** The order of the scenario of the specification after two approvals. *)
Definition jane_order : order :=
  {| order_number := "WHS-001"; customer_name := Some "Jane";
     customer_phone := Some "0771234567";
     items := Some [{| sku := "X1"; qty := 2 |}];
     payment_method := Some "cash"; invoice_number := "";
     status := Some "received"; created_at := 1;
     created_by := Some "staff1";
     approvals := [{| a_staff := Some "staff1"; a_timestamp := 2 |};
                   {| a_staff := Some "staff2"; a_timestamp := 3 |}];
     status_history :=
       [{| h_status := Some "received"; h_timestamp := 1;
           h_staff := Some "staff1" |}];
     deleted_at := None; deleted_by := None;
     original_status := None |}.

(** The state of that scenario: the order created, then approved twice. *)
Definition two_approvals_state : State :=
  run [(1, CreateOrder (Some "Jane") (Some "0771234567")
              (Some [{| sku := "X1"; qty := 2 |}]) (Some "cash") (Some "staff1"));
       (2, AddApproval "WHS-001" (Some "staff1"));
       (3, AddApproval "WHS-001" (Some "staff2"))] initial_state.

(** The requests that write the status of the order with the given number
    in the Order Store, or take the order out of it: a status update and a
    soft delete of that number. *)
Definition rewrites_status (orderNumber : string) (r : request) : Prop :=
  match r with
  | UpdateStatus k _ _ _ | SoftDelete k _ => k = orderNumber
  | _ => False
  end.

(** The fields of an order that a status update is not meant to touch. *)
Definition same_outside_status (o o' : order) : Prop :=
  order_number o' = order_number o ∧
  customer_name o' = customer_name o ∧
  customer_phone o' = customer_phone o ∧
  items o' = items o ∧
  payment_method o' = payment_method o ∧
  created_at o' = created_at o ∧
  created_by o' = created_by o ∧
  approvals o' = approvals o ∧
  deleted_at o' = deleted_at o ∧
  deleted_by o' = deleted_by o ∧
  original_status o' = original_status o.

(** An entry is younger than seven days: its age, now minus its deletion
    timestamp, is less than seven days. *)
Definition younger_than_7_days (now : Z) (o : order) : Prop :=
  ∃ deletedAt, deleted_at o = Some deletedAt ∧ now - deletedAt < 7 * DAY_MS.

(** The audit record of the purge of one entry. *)
Definition cleanup_record (now : Z) (o : order) : audit_entry :=
  {| au_timestamp := now; au_action := "AUTO_CLEANUP";
     au_order_id := order_number o; au_staff := "SYSTEM";
     au_details := "7-day auto cleanup" |}.

#[global] Instance younger_than_7_days_dec t o : Decision (younger_than_7_days t o).
Proof.
  unfold younger_than_7_days. destruct (deleted_at o) as [d|].
  - destruct (decide (t - d < 7 * DAY_MS)) as [H|H].
    + left. by exists d.
    + right. intros (d' & [= <-] & H'). done.
  - right. by intros (d' & [=] & _).
Defined.

(** An entry was deleted after the threshold of the cleanup. *)
Definition deleted_since (sevenDaysAgo : Z) (o : order) : Prop :=
  ∃ deletedAt, deleted_at o = Some deletedAt ∧ sevenDaysAgo < deletedAt.

#[global] Instance deleted_since_dec t o : Decision (deleted_since t o).
Proof.
  unfold deleted_since. destruct (deleted_at o) as [d|].
  - destruct (decide (t < d)) as [H|H].
    + left. by exists d.
    + right. intros (d' & [= <-] & H'). done.
  - right. by intros (d' & [=] & _).
Defined.

(** The entries that a cleanup with that threshold drops. *)
Definition purged_before (sevenDaysAgo : Z) (ds : list order) : list order :=
  filter (λ o, ¬ deleted_since sevenDaysAgo o) ds.

(** The exports directory after the snapshots of some entries have been
    written, one after the other. *)
Definition write_exports (now : Z) (dir : gmap string export_file)
    (ds : list order) : gmap string export_file :=
  foldl (λ d o, <[exportFilename now o := exportData now o]> d) dir ds.

(** The fields that make up the order itself, as opposed to its status and
    to the deletion metadata. *)
Definition same_order_data (o o' : order) : Prop :=
  order_number o' = order_number o ∧
  customer_name o' = customer_name o ∧
  customer_phone o' = customer_phone o ∧
  items o' = items o ∧
  payment_method o' = payment_method o ∧
  invoice_number o' = invoice_number o ∧
  created_at o' = created_at o ∧
  created_by o' = created_by o ∧
  approvals o' = approvals o ∧
  status_history o' = status_history o.

Definition no_deletion_metadata (o : order) : Prop :=
  deleted_at o = None ∧ deleted_by o = None ∧ original_status o = None.

(** No order number occurs twice, within a store or across the two. *)
Definition numbers_distinct (st : State) : Prop :=
  NoDup (order_numbers (orders st) ++ order_numbers (deletedOrders st)).

(** No order number is in both stores. *)
Definition stores_disjoint (st : State) : Prop :=
  ∀ n, n ∈ order_numbers (orders st) → n ∉ order_numbers (deletedOrders st).

(** The requests of the recycle bin. *)
Definition recycle_request (r : request) : Prop :=
  match r with
  | SoftDelete _ _ | Restore _ _ | PermanentlyDelete _ _ _ => True
  | _ => False
  end.

Definition is_create (r : request) : Prop :=
  match r with
  | CreateOrder _ _ _ _ _ => True
  | _ => False
  end.

(** An order whose status was set to the empty string by a status update. *)
Definition empty_status_state : State :=
  run [(1, CreateOrder (Some "Jane") (Some "0771234567")
              (Some [{| sku := "X1"; qty := 2 |}]) (Some "cash") (Some "staff1"));
       (2, UpdateStatus "WHS-001" (Some "") (Some "staff1") None)] initial_state.

(** A state reached by creating two orders, deleting the first and creating
    a third: the Order Store holds the number [WHS-002] twice. *)
Definition duplicated_number_state : State :=
  run [(1, CreateOrder (Some "Jane") (Some "0771234567") None (Some "cash") (Some "staff1"));
       (2, CreateOrder (Some "Ravi") (Some "0719876543") None (Some "card") (Some "staff1"));
       (3, SoftDelete "WHS-001" (Some "manager"));
       (4, CreateOrder (Some "Mala") (Some "0755550000") None (Some "cash") (Some "staff2"))]
      initial_state.

Definition marked_deleted (e : order) : Prop := status e = Some "deleted".

(** [q] occurs in [s]. *)
Definition substring (q s : string) : Prop := ∃ a b, s = a +:+ q +:+ b.

(** [q] occurs in [s] when letter case is ignored. *)
Definition ci_substring (q s : string) : Prop :=
  substring (Js.toLowerCase q) (Js.toLowerCase s).

(** What the search looks for: the query in the customer name or in the
    order number, whatever the case of the letters, or the query as it is
    in the customer phone. *)
Definition search_matches (q : string) (o : order) : Prop :=
  (∃ name, customer_name o = Some name ∧ ci_substring q name) ∨
  ci_substring q (order_number o) ∨
  (∃ phone, customer_phone o = Some phone ∧ substring q phone).

(** The match with the digit-only comparison added: as above, and the
    phone also matches when the digits of the query occur in the digits of
    the phone. *)
Definition search_matches_with_digits (q : string) (o : order) : Prop :=
  (∃ name, customer_name o = Some name ∧ ci_substring q name) ∨
  ci_substring q (order_number o) ∨
  (∃ phone, customer_phone o = Some phone ∧
     (substring q phone ∨ substring (Js.digits_only q) (Js.digits_only phone))).

Definition has_contact (o : order) : Prop :=
  is_Some (customer_name o) ∧ is_Some (customer_phone o).

(** An order whose phone is written with dashes. *)
Definition dashed_phone_state : State :=
  run [(1, CreateOrder (Some "Jane") (Some "077-123-4567")
              (Some [{| sku := "X1"; qty := 2 |}]) (Some "cash") (Some "staff1"))]
      initial_state.

(** What a created order looks like, whatever its number. *)
Definition created_from (now : Z) (customerName customerPhone : option string)
    (items0 : option (list line_item)) (paymentMethod staffName : option string)
    (o : order) : Prop :=
  customer_name o = customerName ∧
  customer_phone o = customerPhone ∧
  items o = items0 ∧
  payment_method o = paymentMethod ∧
  created_by o = staffName ∧
  invoice_number o = "" ∧
  status o = Some "received" ∧
  approvals o = [] ∧
  status_history o =
    [{| h_status := Some "received"; h_timestamp := now; h_staff := staffName |}] ∧
  no_deletion_metadata o.

(** * Further handlers *)

(** ** Read-only handlers *)

(** [GET /api/orders/:orderNumber]; [None] is the 404 answer. *)
Definition getOrder (orderNumber : string) (st : State) : option order :=
  snd <$> findIndex orderNumber (orders st).

Record recycle_stats := {
  rs_total : nat;
  rs_expiringSoon : nat
}.

(** [Math.floor((now - deletedAt) / (1000 * 60 * 60 * 24))]; without a
    deletion date the result is [NaN]. *)
Definition daysOld (now : Z) (o : order) : option Z :=
  match deleted_at o with
  | Some deletedAt => Some ((now - deletedAt) / DAY_MS)
  | None => None
  end.

(** One iteration of the [forEach] of the statistics of the bin. *)
Definition expiring_visit (now : Z) (expiringSoon : nat) (o : order) : nat :=
  match daysOld now o with
  | Some d => if bool_decide (5 ≤ d) then S expiringSoon else expiringSoon
  | None => expiringSoon
  end.

(** [GET /api/recycle-bin/stats] *)
Definition recycleBinStats (now : Z) (st : State) : recycle_stats :=
  {| rs_total := length (deletedOrders st);
     rs_expiringSoon := foldl (expiring_visit now) 0%nat (deletedOrders st) |}.

Record dashboard_stats := {
  ds_total : nat;
  ds_received : nat;
  ds_approved : nat;
  ds_packed : nat;
  ds_ready : nat;
  ds_completed : nat;
  ds_today : nat
}.

(** [orders.filter(o => o.status === s).length] *)
Definition count_status (s : string) (os : list order) : nat :=
  length (filter (λ o, status o = Some s) os).

(** The first ten characters of the ISO text of a timestamp are its date in
    universal time; two timestamps agree on them when they fall on the same
    day. *)
Definition utc_day (t : Z) : Z := t / DAY_MS.

(** [GET /api/stats] *)
Definition dashboardStats (now : Z) (st : State) : dashboard_stats :=
  {| ds_total := length (orders st);
     ds_received := count_status "received" (orders st);
     ds_approved := count_status "approved" (orders st);
     ds_packed := count_status "packed" (orders st);
     ds_ready := count_status "ready" (orders st);
     ds_completed := count_status "completed" (orders st);
     ds_today :=
       length (filter (λ o, utc_day (created_at o) = utc_day now) (orders st)) |}.

(** ** Customer lookup *)

(** The white space of [trim] among the ASCII characters. *)
Definition is_space (c : ascii) : bool :=
  let n := nat_of_ascii c in
  (Nat.leb 9 n && Nat.leb n 13 || Nat.eqb n 32)%bool.

Fixpoint trimStart (s : string) : string :=
  match s with
  | EmptyString => EmptyString
  | String c s' => if is_space c then trimStart s' else s
  end.

Fixpoint trimEnd (s : string) : string :=
  match s with
  | EmptyString => EmptyString
  | String c s' =>
      match trimEnd s' with
      | EmptyString => if is_space c then EmptyString else String c EmptyString
      | r => String c r
      end
  end.

(** [s.trim()] *)
Definition trim (s : string) : string := trimEnd (trimStart s).

(** [Array.prototype.find] with a callback that may throw: [None] when it
    throws, [Some None] when nothing is found. *)
Fixpoint find_throwing {A} (f : A → option bool) (l : list A) : option (option A) :=
  match l with
  | [] => Some None
  | x :: l' =>
      match f x with
      | None => None
      | Some true => Some (Some x)
      | Some false => find_throwing f l'
      end
  end.

(** The part of an order that the lookup sends to the customer. *)
Record public_order := {
  p_order_number : string;
  p_customer_name : option string;
  p_customer_phone : option string;
  p_status : option string;
  p_payment_method : option string;
  p_invoice_number : string;
  p_created_at : Z;
  p_items : option (list line_item);
  p_approvals : list approval;
  p_status_history : list history_entry
}.

Definition publicView (o : order) : public_order :=
  {| p_order_number := order_number o;
     p_customer_name := customer_name o;
     p_customer_phone := customer_phone o;
     p_status := status o;
     p_payment_method := payment_method o;
     p_invoice_number := invoice_number o;
     p_created_at := created_at o;
     p_items := items o;
     p_approvals := approvals o;
     p_status_history := status_history o |}.

Inductive lookup_response :=
| LookupNoQuery
| LookupNotFound
| LookupFound (found : public_order)
| LookupSystemError.

(** [GET /api/customer-lookup] *)
Definition customerLookup (now : Z) (q : option string) (st : State)
    : State * lookup_response :=
  let query := trim <$> q in
  if negb (Js.truthy query) then (st, LookupNoQuery)
  else
    let query := Js.show query in
    match find_throwing (customerLookupMatch query) (orders st) with
    | None => (st, LookupSystemError)
    | Some None =>
        (logAudit now "CUSTOMER_LOOKUP_FAILED" "N/A" "CUSTOMER"
           ("Failed lookup for: " +:+ query) st,
         LookupNotFound)
    | Some (Some matchedOrder) =>
        (logAudit now "CUSTOMER_LOOKUP_SUCCESS" (order_number matchedOrder)
           "CUSTOMER" ("Successful lookup: " +:+ query) st,
         LookupFound (publicView matchedOrder))
    end.

(** *** The lookup of the original server *)

Record tracking_view := {
  t_order_number : string;
  t_status : option string;
  t_invoice_number : string;
  t_payment_method : option string;
  t_created_at : Z
}.

Definition trackingView (o : order) : tracking_view :=
  {| t_order_number := order_number o;
     t_status := status o;
     t_invoice_number := invoice_number o;
     t_payment_method := payment_method o;
     t_created_at := created_at o |}.

Inductive tracking_response :=
| TrackingNotFound
| TrackingFound (found : tracking_view)
| TrackingServerError.

(** The predicate of its [find]; without a query [q.toLowerCase()]
    throws. *)
Definition trackingMatch (q : option string) (o : order) : option bool :=
  match q with
  | None => None
  | Some q =>
      if bool_decide (Js.toLowerCase (order_number o) = Js.toLowerCase q)
      then Some true
      else match customer_phone o with
           | None => None
           | Some phone => Some (Js.includes phone q)
           end
  end.

(** [GET /api/customer-lookup] of the original server; it is not wrapped in
    a [try], and writes no audit record. *)
Definition trackingLookup (q : option string) (st : State) : tracking_response :=
  match find_throwing (trackingMatch q) (orders st) with
  | None => TrackingServerError
  | Some None => TrackingNotFound
  | Some (Some o) => TrackingFound (trackingView o)
  end.

(** The action tag under which a request is logged. *)
Definition audit_action (r : request) : string :=
  match r with
  | CreateOrder _ _ _ _ _ => "ORDER_CREATED"
  | UpdateStatus _ _ _ _ => "STATUS_UPDATE"
  | AddApproval _ _ => "APPROVAL_ADDED"
  | SoftDelete _ _ => "ORDER_MOVED_TO_RECYCLE"
  | Restore _ _ => "ORDER_RESTORED"
  | PermanentlyDelete _ _ _ => "ORDER_PERMANENTLY_DELETED"
  | AutoCleanup _ => "AUTO_CLEANUP"
  end.

(** The order number a request is about, once the state is known. *)
Definition audit_subject (r : request) (st : State) : string :=
  match r with
  | CreateOrder _ _ _ _ _ => generateOrderNumber st
  | UpdateStatus k _ _ _ | AddApproval k _ | SoftDelete k _ | Restore k _
  | PermanentlyDelete _ k _ => k
  | AutoCleanup _ => "N/A"
  end.

Definition rejected (a : response) : Prop := a = RNotFound ∨ a = RAlreadyApproved.

Definition is_cleanup (r : request) : Prop :=
  match r with AutoCleanup _ => True | _ => False end.

(** The number of orders held, active or in the recycle bin. *)
Definition orders_held (st : State) : nat :=
  (length (orders st) + length (deletedOrders st))%nat.

(** By how much a request and its answer change that number. *)
Definition held_change (r : request) (a : response) : Z :=
  match r, a with
  | CreateOrder _ _ _ _ _, _ => 1
  | PermanentlyDelete _ _ _, RExportedTo _ => -1
  | _, _ => 0
  end.

(** No staff member occurs twice among the approvals of the order. *)
Definition approvals_distinct (o : order) : Prop :=
  NoDup (a_staff <$> approvals o).




(** A property of every order of the two stores. *)
Definition every_order (P : order → Prop) (st : State) : Prop :=
  Forall P (orders st) ∧ Forall P (deletedOrders st).

(** An entry has been in the bin for five days or more. *)
Definition five_days_old (now : Z) (o : order) : Prop :=
  ∃ deletedAt, deleted_at o = Some deletedAt ∧ 5 * DAY_MS ≤ now - deletedAt.

#[global] Instance five_days_old_dec t o : Decision (five_days_old t o).
Proof.
  unfold five_days_old. destruct (deleted_at o) as [d|].
  - destruct (decide (5 * DAY_MS ≤ t - d)) as [H|H].
    + left. by exists d.
    + right. intros (d' & [= <-] & H'). done.
  - right. by intros (d' & [=] & _).
Defined.

(** The status is one of the five that the dashboard counts. *)
Definition counted_status (o : order) : Prop :=
  status o = Some "received" ∨ status o = Some "approved" ∨
  status o = Some "packed" ∨ status o = Some "ready" ∨
  status o = Some "completed".

#[global] Instance counted_status_dec o : Decision (counted_status o).
Proof. unfold counted_status. apply _. Defined.

(** What the search looks for in the status. *)
Definition status_matches (status0 : option string) (o : order) : Prop :=
  Js.truthy status0 = false ∨ status0 = Some "all" ∨ status o = status0.

#[global] Instance status_matches_dec s o : Decision (status_matches s o).
Proof. unfold status_matches. apply _. Defined.

(** What the search looks for in the text, an empty or absent query
    matching every order. *)
Definition query_matches (q : option string) (o : order) : Prop :=
  match q with
  | Some q => search_matches q o
  | None => True
  end.

(** What the customer lookup looks for: the order number, whatever the
    case of the letters, or the query in the phone, as it is or digits
    against digits. *)
Definition lookup_matches (query : string) (o : order) : Prop :=
  Js.toLowerCase (order_number o) = Js.toLowerCase query ∨
  ∃ phone, customer_phone o = Some phone ∧
    (substring query phone ∨
     substring (Js.digits_only query) (Js.digits_only phone)).

(** Nothing but white space. *)
Fixpoint blank (s : string) : bool :=
  match s with
  | EmptyString => true
  | String c s' => is_space c && blank s'
  end.

Definition has_phone (o : order) : Prop := is_Some (customer_phone o).

(** A creation request of the original server, with the local date at which
    it arrives. *)
Record creation := {
  c_now : Z;
  c_day : nat;
  c_month : nat;
  c_customerName : option string;
  c_customerPhone : option string;
  c_items : option (list line_item);
  c_paymentMethod : option string;
  c_staffName : option string
}.

(** The state of the original server after a sequence of creations. *)
Fixpoint original_creations (cs : list creation) (st : State) : State :=
  match cs with
  | [] => st
  | c :: cs' =>
      original_creations cs'
        (Original.createOrder (c_now c) (c_day c) (c_month c)
           (c_customerName c) (c_customerPhone c) (c_items c)
           (c_paymentMethod c) (c_staffName c) st).1
  end.

Fixpoint all_digits (s : string) : bool :=
  match s with
  | EmptyString => true
  | String c s' => Js.is_digit c && all_digits s'
  end.

(** The number of the orders whose number starts with a prefix. *)
Definition numbered_with (todayCode : string) (os : list order) : nat :=
  length (filter (λ o, Js.startsWith (order_number o) todayCode) os).

(** An order number made of a date code and of a sequence number that the
    count of the store has already passed. *)
Definition date_numbered (os : list order) (o : order) : Prop :=
  ∃ dateCode j,
    order_number o =
      "WHS-" +:+ dateCode +:+ "-" +:+ Js.padStart (Js.String_of_nat j) 2 "0" ∧
    all_digits dateCode = true ∧
    (0 < j ≤ numbered_with ("WHS-" +:+ dateCode) os)%nat.

Definition date_numbering (os : list order) : Prop :=
  NoDup (order_numbers os) ∧ Forall (date_numbered os) os.

(** An order created without any field. *)
Definition nameless_state : State :=
  run [(1, CreateOrder None None None None None)] initial_state.

(** Jane's order in the recycle bin since the first millisecond, and
    Ravi's since the start of the sixth day. *)
Definition two_in_bin_state : State :=
  run [(0, CreateOrder (Some "Jane") (Some "0771234567") None (Some "cash") (Some "staff1"));
       (0, CreateOrder (Some "Ravi") (Some "0719876543") None (Some "card") (Some "staff1"));
       (1, SoftDelete "WHS-001" (Some "manager"));
       (5 * DAY_MS, SoftDelete "WHS-002" (Some "manager"))] initial_state.

(** * Properties *)

(** ** Looking an order up by its number *)

Section FindIndex.
Implicit Types (os : list order) (o : order) (n : string).

Lemma findIndex_Some n os i o :
  findIndex n os = Some (i, o) ↔
  os !! i = Some o ∧ order_number o = n ∧
  ∀ j y, os !! j = Some y → (j < i)%nat → order_number y ≠ n.
Proof. apply (list_find_Some (λ x, order_number x = n)). Qed.

Lemma findIndex_lookup n os i o :
  findIndex n os = Some (i, o) → os !! i = Some o ∧ order_number o = n.
Proof. rewrite findIndex_Some. tauto. Qed.

Lemma findIndex_None n os :
  findIndex n os = None ↔ n ∉ order_numbers os.
Proof.
  unfold findIndex, order_numbers. rewrite list_find_None, Forall_forall.
  rewrite list_elem_of_fmap. split.
  - intros H (o & -> & Ho). by apply (H o).
  - intros H o Ho Hn. apply H. by exists o.
Qed.

Lemma findIndex_is_Some n os :
  n ∈ order_numbers os → is_Some (findIndex n os).
Proof.
  intros Hn. destruct (findIndex n os) eqn:E; [by eexists|].
  by apply findIndex_None in E.
Qed.

(** Writing back an object with the same number leaves it where it was. *)
Lemma findIndex_insert n os i o o' :
  findIndex n os = Some (i, o) → order_number o' = n →
  findIndex n (<[i:=o']> os) = Some (i, o').
Proof.
  rewrite !findIndex_Some. intros (Hi & Hn & Hleast) Hn'.
  split_and!; [|done|].
  - apply list_lookup_insert_eq. by eapply lookup_lt_Some.
  - intros j y Hj Hlt. rewrite list_lookup_insert_ne in Hj by lia. eauto.
Qed.
Lemma findIndex_insert_ne m os : ∀ i o o',
  os !! i = Some o → order_number o' = order_number o → order_number o ≠ m →
  findIndex m (<[i:=o']> os) = findIndex m os.
Proof.
  unfold findIndex.
  induction os as [|x os IH]; intros [|i] o o' Hi Ho Hm; try done; cbn in *.
  - injection Hi as ->. rewrite !decide_False by congruence. done.
  - case_decide; [done|]. f_equal. by apply (IH i o o').
Qed.

(** Orders pushed at the end do not hide an order found before. *)
Lemma findIndex_app_l n os os' i o :
  findIndex n os = Some (i, o) → findIndex n (os ++ os') = Some (i, o).
Proof. apply list_find_app_l. Qed.

(** Splicing out an order with another number keeps the order found. *)
Lemma findIndex_delete_ne n os : ∀ i o j oj,
  findIndex n os = Some (i, o) → os !! j = Some oj → order_number oj ≠ n →
  ∃ i', findIndex n (delete j os) = Some (i', o).
Proof.
  unfold findIndex.
  induction os as [|x os IH]; intros i o [|j] oj Hf Hj Hne; try done.
  - injection Hj as <-.
    change (x :: os) with ([x] ++ os) in Hf.
    rewrite list_find_app_r in Hf by (cbn; by rewrite decide_False).
    replace (delete 0%nat (x :: os)) with os by reflexivity.
    destruct (list_find _ os) as [[k y]|]; [|done].
    cbn in Hf. injection Hf as <- <-. by eexists.
  - replace (delete (S j) (x :: os)) with ([x] ++ delete j os) by reflexivity.
    change (x :: os) with ([x] ++ os) in Hf.
    destruct (decide (order_number x = n)) as [Hx|Hx].
    + assert (Hx0 : list_find (λ o, order_number o = n) [x] = Some (0%nat, x))
        by (cbn; by rewrite decide_True).
      erewrite list_find_app_l in Hf by exact Hx0.
      erewrite list_find_app_l by exact Hx0.
      injection Hf as <- <-. by eexists.
    + assert (Hx0 : list_find (λ o, order_number o = n) [x] = None)
        by (cbn; by rewrite decide_False).
      rewrite list_find_app_r in Hf by done.
      rewrite list_find_app_r by done.
      destruct (list_find _ os) as [[k y]|] eqn:E; [|done].
      cbn in Hf. injection Hf as <- <-.
      destruct (IH k y j oj eq_refl Hj Hne) as [i' ->]. by eexists.
Qed.
End FindIndex.

(** ** Approvals *)

Section Approvals.
Implicit Types (o : order) (staffName : option string).

Lemma approve_order_duplicate now staffName o :
  has_approved staffName o → approve_order now staffName o = None.
Proof.
  intros (a & Ha & Hs). unfold approve_order.
  destruct (list_find_elem_of (λ a, a_staff a = staffName) _ a Ha Hs)
    as [x ->].
  done.
Qed.

Lemma approve_order_fresh now staffName o :
  ¬ has_approved staffName o →
  ∃ o', approve_order now staffName o = Some o' ∧
    approvals o' =
      approvals o ++ [{| a_staff := staffName; a_timestamp := now |}] ∧
    order_number o' = order_number o.
Proof.
  intros Hfresh. unfold approve_order.
  destruct (list_find _ (approvals o)) as [[k a]|] eqn:E.
  - apply list_find_Some in E as (Hk & Ha & _).
    destruct Hfresh. exists a. split; [|done].
    by eapply list_elem_of_lookup_2.
  - eexists. split; [reflexivity|]. by case_match.
Qed.

(** The promotion fires on the approval that makes the count reach three
    at status [received]. *)
Lemma approve_order_third now staffName o :
  ¬ has_approved staffName o →
  length (approvals o) = 2%nat →
  status o = Some "received" →
  ∃ o', approve_order now staffName o = Some o' ∧
    status o' = Some "approved" ∧
    status_history o' =
      status_history o ++
        [{| h_status := Some "approved"; h_timestamp := now;
            h_staff := Some "SYSTEM" |}] ∧
    length (approvals o') = 3%nat ∧
    order_number o' = order_number o.
Proof.
  intros Hfresh Hlen Hst. unfold approve_order.
  destruct (list_find _ (approvals o)) as [[k a]|] eqn:E.
  - apply list_find_Some in E as (Hk & Ha & _).
    destruct Hfresh. exists a. split; [|done].
    by eapply list_elem_of_lookup_2.
  - eexists. split; [reflexivity|]. cbn.
    rewrite length_app, Hlen, Hst. cbn.
    rewrite !bool_decide_eq_true_2 by (done || lia). cbn.
    rewrite length_app, Hlen. done.
Qed.

(** Away from [received] an approval touches the approvals only. *)
Lemma approve_order_not_received now staffName o o' :
  status o ≠ Some "received" →
  approve_order now staffName o = Some o' →
  status o' = status o ∧ status_history o' = status_history o ∧
  length (approvals o') = S (length (approvals o)) ∧
  order_number o' = order_number o.
Proof.
  intros Hst. unfold approve_order.
  destruct (list_find _ (approvals o)); [done|].
  intros [= <-]. cbn.
  rewrite (bool_decide_eq_false_2 (status o = _)) by done.
  rewrite andb_false_r. cbn. rewrite length_app. cbn. split_and!; [done..|lia|done].
Qed.
End Approvals.

(** C6: an approval by a staff member who has approved the order already is
    rejected (the 400 answer, "already approved") and nothing changes: the
    whole state, hence the approval count, the status and the status
    history of the order, is as before; an approval by a staff member who
    has not approved it yet adds exactly one approval to the order, and the
    answer is the new count. *)
Theorem addApproval_duplicate_rejected_fresh_counted
    now orderNumber staffName st i o :
  findIndex orderNumber (orders st) = Some (i, o) →
  (has_approved staffName o →
     addApproval now orderNumber staffName st = (st, RAlreadyApproved)) ∧
  (¬ has_approved staffName o →
     ∃ o', (addApproval now orderNumber staffName st).2
             = RApprovals (S (length (approvals o))) ∧
           orders (addApproval now orderNumber staffName st).1
             = <[i:=o']> (orders st) ∧
           approvals o' =
             approvals o ++ [{| a_staff := staffName; a_timestamp := now |}] ∧
           length (approvals o') = S (length (approvals o))).
Proof.
  intros Hfind. unfold addApproval. rewrite Hfind. split.
  - intros Hdup. by rewrite approve_order_duplicate.
  - intros Hfresh.
    destruct (approve_order_fresh now staffName o Hfresh) as (o' & -> & Happ & _).
    exists o'. cbn. rewrite Happ, length_app. cbn.
    split_and!; [f_equal; lia|done|done|lia].
Qed.

Lemma addApproval_duplicate_rejected_fresh_counted_witness :
  addApproval 4 "WHS-001" (Some "staff2") two_approvals_state
    = (two_approvals_state, RAlreadyApproved)
  ∧ (addApproval 4 "WHS-001" (Some "staff3") two_approvals_state).2
    = RApprovals 3.
Proof.
  assert (Hfind : findIndex "WHS-001" (orders two_approvals_state)
                  = Some (0%nat, jane_order)) by (vm_compute; reflexivity).
  split.
  - apply (proj1 (addApproval_duplicate_rejected_fresh_counted
                    4 "WHS-001" (Some "staff2") _ _ _ Hfind)).
    exists {| a_staff := Some "staff2"; a_timestamp := 3 |}.
    split; [|reflexivity]. cbn. apply elem_of_cons. right. apply elem_of_cons. by left.
  - destruct (proj2 (addApproval_duplicate_rejected_fresh_counted
                       4 "WHS-001" (Some "staff3") _ _ _ Hfind)) as (o' & Hr & _).
    + intros (a & Ha & Hs). cbn in Ha.
      apply elem_of_cons in Ha as [->|Ha]; [done|].
      apply elem_of_cons in Ha as [->|Ha]; [done|].
      by apply elem_of_nil in Ha.
    + exact Hr.
Defined.

Lemma addApproval_not_received now n staffName st i o :
  findIndex n (orders st) = Some (i, o) →
  status o ≠ Some "received" →
  ∃ o', findIndex n (orders (addApproval now n staffName st).1) = Some (i, o') ∧
        status o' = status o ∧ status_history o' = status_history o.
Proof.
  intros Hfind Hst. unfold addApproval. rewrite Hfind.
  destruct (approve_order now staffName o) as [o'|] eqn:E; cbn.
  - destruct (approve_order_not_received _ _ _ _ Hst E) as (? & ? & _ & Hn).
    exists o'. split_and!; [|done..].
    apply findIndex_insert with o; [done|].
    rewrite Hn. by apply findIndex_lookup in Hfind as [_ ?].
  - by exists o.
Qed.

(** ** Status updates *)

(** C10: a status update replaces the order found by an order that differs
    from it in [status], [invoice_number] and [status_history] at most;
    [invoice_number] is kept when the [invoiceNumber] argument is absent or
    the empty string, and is overwritten by a non-empty one; the status is
    set to the argument and one history entry is appended; the other orders
    and the recycle bin stay as they are. *)
Theorem updateStatus_frame now orderNumber status0 staffName invoiceNumber st i o :
  findIndex orderNumber (orders st) = Some (i, o) →
  ∃ o',
    (updateStatus now orderNumber status0 staffName invoiceNumber st).2 = RSuccess ∧
    orders (updateStatus now orderNumber status0 staffName invoiceNumber st).1
      = <[i:=o']> (orders st) ∧
    deletedOrders (updateStatus now orderNumber status0 staffName invoiceNumber st).1
      = deletedOrders st ∧
    (invoiceNumber = None ∨ invoiceNumber = Some "" →
       invoice_number o' = invoice_number o) ∧
    (∀ v, invoiceNumber = Some v → v ≠ "" → invoice_number o' = v) ∧
    same_outside_status o o' ∧
    status o' = status0 ∧
    status_history o' =
      status_history o ++
        [{| h_status := status0; h_timestamp := now; h_staff := staffName |}].
Proof.
  intros Hfind. unfold updateStatus. rewrite Hfind. cbn.
  eexists. split_and!; [reflexivity|reflexivity|reflexivity|..].
  - intros [->| ->]; reflexivity.
  - intros v -> Hv. cbn. by destruct (decide (v = "")).
  - unfold same_outside_status.
    destruct invoiceNumber as [v|]; [|done]. by destruct (Js.truthy (Some v)).
  - destruct invoiceNumber as [v|]; [|done]. by destruct (Js.truthy (Some v)).
  - destruct invoiceNumber as [v|]; [|done]. by destruct (Js.truthy (Some v)).
Qed.

Lemma updateStatus_frame_witness :
  ∃ o',
    orders (updateStatus 5 "WHS-001" (Some "packed") (Some "staff2") (Some "")
              two_approvals_state).1
      = <[0%nat:=o']> (orders two_approvals_state) ∧
    invoice_number o' = "" ∧
    status o' = Some "packed".
Proof.
  destruct (updateStatus_frame 5 "WHS-001" (Some "packed") (Some "staff2") (Some "")
              two_approvals_state 0%nat
              jane_order)
    as (o' & _ & Ho & _ & Hinv & _ & _ & Hst & _).
  - vm_compute. reflexivity.
  - exists o'. split_and!; [exact Ho|apply Hinv; by right|exact Hst].
Defined.

(** ** Age-based purge of the recycle bin *)

Section Cleanup.
Variables (now : Z) (disk_ok : bool) (sevenDaysAgo : Z).

Lemma deleted_after_spec o :
  deleted_after sevenDaysAgo o = true ↔ deleted_since sevenDaysAgo o.
Proof.
  unfold deleted_after, deleted_since.
  destruct (deleted_at o) as [d|].
  - rewrite Z.ltb_lt. split.
    + intros H. by exists d.
    + by intros (d' & [= <-] & H).
  - split; [done|]. by intros (d' & [=] & _).
Qed.

(** The loop, entry by entry: what it keeps, what it counts, what it
    writes. *)
Lemma cleanup_loop ds : ∀ acc,
  let acc' := foldl (cleanup_visit now disk_ok sevenDaysAgo) acc ds in
  toKeep acc' = toKeep acc ++ filter (deleted_since sevenDaysAgo) ds ∧
  cleanedCount acc' =
    (cleanedCount acc + length (purged_before sevenDaysAgo ds))%nat ∧
  orders (acc_state acc') = orders (acc_state acc) ∧
  deletedOrders (acc_state acc') = deletedOrders (acc_state acc) ∧
  auditLog (acc_state acc') =
    auditLog (acc_state acc)
      ++ (cleanup_record now <$> purged_before sevenDaysAgo ds) ∧
  exportsDir (acc_state acc') =
    if disk_ok
    then write_exports now (exportsDir (acc_state acc))
           (purged_before sevenDaysAgo ds)
    else exportsDir (acc_state acc).
Proof.
  unfold purged_before, write_exports.
  induction ds as [|o ds IH]; intros acc; cbn [foldl].
  - rewrite !filter_nil. cbn. rewrite !app_nil_r, Nat.add_0_r.
    by destruct disk_ok.
  - specialize (IH (cleanup_visit now disk_ok sevenDaysAgo acc o)).
    cbn zeta in IH. destruct IH as (Hk & Hc & Ho & Hd & Ha & He).
    cbn zeta. rewrite Hk, Hc, Ho, Hd, Ha, He. clear Hk Hc Ho Hd Ha He.
    unfold cleanup_visit.
    destruct (deleted_after sevenDaysAgo o) eqn:E.
    + apply deleted_after_spec in E.
      rewrite (filter_cons_True _ _ _ E).
      rewrite filter_cons_False by (intros H; by apply H).
      cbn. rewrite <- app_assoc. done.
    + assert (¬ deleted_since sevenDaysAgo o) as E'.
      { intros H%deleted_after_spec. congruence. }
      rewrite (filter_cons_False _ _ _ E').
      rewrite (filter_cons_True (λ o, ¬ deleted_since sevenDaysAgo o) _ _ E').
      unfold exportOrderData. destruct disk_ok; cbn;
        rewrite <- ?app_assoc; split_and!; try done; lia.
Qed.


Lemma purged_nil_keeps_all ds :
  length (purged_before sevenDaysAgo ds) = 0%nat →
  filter (deleted_since sevenDaysAgo) ds = ds.
Proof.
  unfold purged_before. induction ds as [|o ds IH]; [done|].
  destruct (decide (deleted_since sevenDaysAgo o)) as [H|H].
  - rewrite (filter_cons_True _ _ _ H).
    rewrite filter_cons_False by (intros H'; by apply H').
    intros Hl. by rewrite IH.
  - rewrite (filter_cons_True (λ o, ¬ deleted_since sevenDaysAgo o) _ _ H). done.
Qed.
End Cleanup.

Lemma State_eq (a b : State) :
  orders a = orders b → deletedOrders a = deletedOrders b →
  auditLog a = auditLog b → exportsDir a = exportsDir b → a = b.
Proof. destruct a, b; cbn; congruence. Qed.


(** What one cleanup does to the four parts of the state. *)
Lemma autoCleanup_effect tz now disk_ok st :
  let st' := autoCleanupDeletedOrders tz now disk_ok st in
  deletedOrders st' =
    filter (deleted_since (sevenDaysBefore tz now)) (deletedOrders st) ∧
  orders st' = orders st ∧
  auditLog st' =
    auditLog st ++
      (cleanup_record now <$>
         purged_before (sevenDaysBefore tz now) (deletedOrders st)) ∧
  exportsDir st' =
    if disk_ok
    then write_exports now (exportsDir st)
           (purged_before (sevenDaysBefore tz now) (deletedOrders st))
    else exportsDir st.
Proof.
  cbn zeta. unfold autoCleanupDeletedOrders.
  destruct (cleanup_loop now disk_ok (sevenDaysBefore tz now) (deletedOrders st)
              {| acc_state := st; toKeep := []; cleanedCount := 0 |})
    as (Hk & Hc & Ho & Hd & Ha & He).
  cbn in Hk, Hc, Ho, Hd, Ha, He.
  case_bool_decide as Hcount; cbn.
  - by rewrite Hk, Ho, Ha, He.
  - rewrite Hd, Ho, Ha, He. split_and!; [|done..].
    symmetry. apply purged_nil_keeps_all. lia.
Qed.

(** Seven days of twenty-four hours before [now]: the threshold on a host
    whose clocks did not change in between. *)
Lemma deleted_since_plain_week now o :
  deleted_since (now - 7 * DAY_MS) o ↔ younger_than_7_days now o.
Proof.
  unfold deleted_since, younger_than_7_days.
  split; intros (d & Hd & H); exists d; (split; [done|lia]).
Qed.

Lemma sevenDaysBefore_utc now : sevenDaysBefore utc_zone now = now - 7 * DAY_MS.
Proof. reflexivity. Qed.

(** *** The files of the exports directory *)




Lemma write_exports_dom now ds : ∀ dir,
  dom dir ⊆ dom (write_exports now dir ds).
Proof.
  unfold write_exports. induction ds as [|o ds IH]; intros dir; [done|].
  cbn [foldl]. etrans; [|apply IH]. apply dom_insert_subseteq.
Qed.






(** ** Moving orders between the two stores *)

Section RecycleBin.
Implicit Types (st : State) (o e : order) (n : string).

Lemma delete_length_snoc {A} (l : list A) x : delete (length l) (l ++ [x]) = l.
Proof. rewrite delete_middle. apply app_nil_r. Qed.

Lemma findIndex_snoc_fresh n os o :
  n ∉ order_numbers os → order_number o = n →
  findIndex n (os ++ [o]) = Some (length os, o).
Proof.
  intros Hfresh%findIndex_None Hn. unfold findIndex in *.
  rewrite list_find_app_r by done. cbn.
  rewrite decide_True by done. done.
Qed.

Lemma softDelete_found now n staffName st i o :
  findIndex n (orders st) = Some (i, o) →
  softDelete now n staffName st =
    (logAudit now "ORDER_MOVED_TO_RECYCLE" n (Js.or_default staffName "manager")
       ("Order moved to recycle bin: " +:+ Js.show (customer_name o))
       (saveDeletedOrders
          (deletedOrders st ++
             [set_status (Some "deleted")
                (set_deletion (Some now)
                   (Some (Js.or_default staffName "manager")) (status o) o)])
          (saveOrders (delete i (orders st)) st)),
     RRecycleBinCount (length (deletedOrders st ++
             [set_status (Some "deleted")
                (set_deletion (Some now)
                   (Some (Js.or_default staffName "manager")) (status o) o)]))).
Proof. intros Hfind. unfold softDelete. by rewrite Hfind. Qed.

Lemma restore_found now n staffName st i e :
  findIndex n (deletedOrders st) = Some (i, e) →
  restore now n staffName st =
    (logAudit now "ORDER_RESTORED" n (Js.or_default staffName "manager")
       ("Order restored from recycle bin: " +:+ Js.show (customer_name e))
       (saveDeletedOrders (delete i (deletedOrders st))
          (saveOrders
             (orders st ++
                [set_deletion None None None
                   (set_status (Js.or_value (original_status e) "received") e)])
             st)),
     RSuccess).
Proof. intros Hfind. unfold restore. by rewrite Hfind. Qed.

Lemma permanentlyDelete_found now disk_ok n staffName st i e :
  findIndex n (deletedOrders st) = Some (i, e) →
  orders (permanentlyDelete now disk_ok n staffName st).1 = orders st ∧
  deletedOrders (permanentlyDelete now disk_ok n staffName st).1
    = delete i (deletedOrders st).
Proof.
  intros Hfind. unfold permanentlyDelete, exportOrderData. rewrite Hfind.
  by destruct disk_ok.
Qed.

(** What a request does to the order numbers of the two stores. *)
Lemma updateStatus_numbers now n s staff inv st :
  order_numbers (orders (updateStatus now n s staff inv st).1)
    = order_numbers (orders st) ∧
  deletedOrders (updateStatus now n s staff inv st).1 = deletedOrders st.
Proof.
  unfold updateStatus. destruct (findIndex n (orders st)) as [[i o]|] eqn:E; [|done].
  cbn. split; [|done]. unfold order_numbers. rewrite list_fmap_insert.
  apply list_insert_id. rewrite list_lookup_fmap.
  apply findIndex_lookup in E as [-> _]. cbn.
  destruct inv as [v|]; [|done]. by destruct (Js.truthy (Some v)).
Qed.

Lemma addApproval_numbers now n staff st :
  order_numbers (orders (addApproval now n staff st).1)
    = order_numbers (orders st) ∧
  deletedOrders (addApproval now n staff st).1 = deletedOrders st.
Proof.
  unfold addApproval. destruct (findIndex n (orders st)) as [[i o]|] eqn:E; [|done].
  destruct (approve_order now staff o) as [o'|] eqn:Ea; [|done].
  cbn. split; [|done]. unfold order_numbers. rewrite list_fmap_insert.
  apply list_insert_id. rewrite list_lookup_fmap.
  apply findIndex_lookup in E as [-> _]. cbn. f_equal.
  unfold approve_order in Ea. destruct (list_find _ _); [done|].
  injection Ea as <-. by case_match.
Qed.

Lemma NoDup_submseteq_inv {A} (l k : list A) : l ⊆+ k → NoDup k → NoDup l.
Proof.
  intros (k' & Hk)%submseteq_Permutation. rewrite Hk, NoDup_app. tauto.
Qed.

Lemma order_numbers_delete_snoc (os ds : list order) i o e :
  os !! i = Some o → order_number e = order_number o →
  order_numbers (delete i os) ++ order_numbers (ds ++ [e])
    ≡ₚ order_numbers os ++ order_numbers ds.
Proof.
  intros Hi He. unfold order_numbers.
  rewrite (delete_Permutation os i o Hi) at 2.
  rewrite fmap_app. cbn. rewrite He.
  rewrite (Permutation_app_comm (order_number <$> ds)).
  cbn. by rewrite Permutation_middle.
Qed.

(** Every request but the creation of an order keeps the order numbers
    pairwise distinct. *)
Lemma handle_numbers_distinct now r st :
  ¬ is_create r → numbers_distinct st → numbers_distinct (handle now r st).1.
Proof.
  unfold numbers_distinct. intros Hr Hst.
  destruct r as [| n s staff inv | n staff | n staff | n staff | ok n staff | ok]; cbn.
  - by destruct Hr.
  - by destruct (updateStatus_numbers now n s staff inv st) as [-> ->].
  - by destruct (addApproval_numbers now n staff st) as [-> ->].
  - destruct (findIndex n (orders st)) as [[i o]|] eqn:E.
    + rewrite (softDelete_found _ _ _ _ _ _ E). cbn.
      apply findIndex_lookup in E as [Hi _].
      by rewrite (order_numbers_delete_snoc _ _ i o).
    + unfold softDelete. by rewrite E.
  - destruct (findIndex n (deletedOrders st)) as [[i e]|] eqn:E.
    + rewrite (restore_found _ _ _ _ _ _ E). cbn.
      apply findIndex_lookup in E as [Hi _].
      rewrite Permutation_app_comm.
      rewrite (order_numbers_delete_snoc _ _ i e) by done.
      by rewrite Permutation_app_comm.
    + unfold restore. by rewrite E.
  - destruct (findIndex n (deletedOrders st)) as [[i e]|] eqn:E.
    + destruct (permanentlyDelete_found now ok n staff st i e E) as [-> ->].
      eapply NoDup_submseteq_inv; [|done].
      apply submseteq_skips_l. unfold order_numbers.
      apply fmap_submseteq, submseteq_delete.
    + unfold permanentlyDelete. by rewrite E.
  - destruct (autoCleanup_effect (host_zone ok) now (host_disk_ok ok) st) as (-> & -> & _).
    eapply NoDup_submseteq_inv; [|done].
    apply submseteq_skips_l. unfold order_numbers.
    apply fmap_submseteq, sublist_submseteq, sublist_filter.
Qed.

Lemma numbers_distinct_disjoint st : numbers_distinct st → stores_disjoint st.
Proof.
  unfold numbers_distinct, stores_disjoint. rewrite NoDup_app.
  intros (_ & Hdisj & _). exact Hdisj.
Qed.
End RecycleBin.

(** *** Soft delete followed by restore *)

(** C3, as stated, fails: an order whose status is the empty string comes
    back from the recycle bin with status [received]. *)
Lemma softDelete_restore_empty_status_counterexample :
  ∃ o o',
    findIndex "WHS-001" (orders empty_status_state) = Some (0%nat, o) ∧
    findIndex "WHS-001"
      (orders (run [(3, SoftDelete "WHS-001" (Some "manager"));
                    (4, Restore "WHS-001" (Some "manager"))] empty_status_state))
      = Some (0%nat, o') ∧
    status o = Some "" ∧
    status o' = Some "received" ∧
    status o' ≠ status o.
Proof.
  eexists. eexists. split_and!; [vm_compute; reflexivity..|].
  vm_compute. discriminate.
Qed.

(** C3, amended: for the first order of the Order Store with a given
    number, when no entry of the recycle bin has that number, a soft delete
    followed by a restore with the same number puts the order back, at the
    end of the Order Store, with its data and its status history as they
    were and without deletion metadata, and leaves the recycle bin as it
    was; its status is the status before the deletion when that status is a
    non-empty string, and [received] when it is empty or absent. *)
Theorem softDelete_restore_identity now1 now2 n staff1 staff2 st i o :
  findIndex n (orders st) = Some (i, o) →
  n ∉ order_numbers (deletedOrders st) →
  let st2 := (restore now2 n staff2 (softDelete now1 n staff1 st).1).1 in
  (restore now2 n staff2 (softDelete now1 n staff1 st).1).2 = RSuccess ∧
  deletedOrders st2 = deletedOrders st ∧
  ∃ o', orders st2 = delete i (orders st) ++ [o'] ∧
        same_order_data o o' ∧
        no_deletion_metadata o' ∧
        status o' = Some (Js.or_default (status o) "received") ∧
        (Js.truthy (status o) = true → status o' = status o).
Proof.
  intros Hfind Hfresh. cbn zeta.
  rewrite (softDelete_found _ _ _ _ _ _ Hfind). cbn [fst].
  pose proof (findIndex_lookup _ _ _ _ Hfind) as [_ Hn].
  erewrite restore_found; last first.
  { cbn. by apply findIndex_snoc_fresh. }
  cbn. rewrite delete_length_snoc. split_and!; [done..|].
  eexists. split_and!; [reflexivity|by repeat split|by repeat split|done|].
  destruct (status o) as [s|]; [|done].
  cbn. unfold Js.or_value, Js.or_default.
  destruct (decide (s = "")); [discriminate|reflexivity].
Qed.

Lemma softDelete_restore_identity_witness :
  ∃ o',
    orders (restore 5 "WHS-001" None
              (softDelete 4 "WHS-001" (Some "manager") two_approvals_state).1).1
      = [o'] ∧
    status o' = Some "received" ∧ no_deletion_metadata o'.
Proof.
  destruct (softDelete_restore_identity 4 5 "WHS-001" (Some "manager") None
              two_approvals_state 0%nat
              jane_order)
    as (_ & _ & o' & Ho & _ & Hmeta & _ & Hst).
  - vm_compute. reflexivity.
  - vm_compute. apply not_elem_of_nil.
  - exists o'. split_and!; [exact Ho|by apply Hst|exact Hmeta].
Defined.

(** Why the recycle bin must not hold the number already: the restore
    takes the first entry of the bin with that number.  Here Ravi's order
    gets the number of Jane's deleted order; deleting and restoring it
    brings back Jane's order. *)
Example restore_takes_first_bin_entry :
  customer_name <$>
    orders (run [(1, CreateOrder (Some "Jane") (Some "0771234567") None (Some "cash") None);
                 (2, SoftDelete "WHS-001" None);
                 (3, CreateOrder (Some "Ravi") (Some "0719876543") None (Some "card") None);
                 (4, SoftDelete "WHS-001" None);
                 (5, Restore "WHS-001" None)] initial_state)
  = [Some "Jane"].
Proof. vm_compute. reflexivity. Qed.

(** *** The two stores never share an order number *)

(** C4, as stated, fails: the stores of this state are disjoint, and after
    one soft delete the number [WHS-002] is in both. *)
Lemma softDelete_duplicate_number_counterexample :
  stores_disjoint duplicated_number_state ∧
  recycle_request (SoftDelete "WHS-002" (Some "manager")) ∧
  "WHS-002" ∈ order_numbers
    (orders (run [(5, SoftDelete "WHS-002" (Some "manager"))] duplicated_number_state)) ∧
  "WHS-002" ∈ order_numbers
    (deletedOrders (run [(5, SoftDelete "WHS-002" (Some "manager"))] duplicated_number_state)) ∧
  ¬ stores_disjoint
      (run [(5, SoftDelete "WHS-002" (Some "manager"))] duplicated_number_state).
Proof.
  assert (H1 : "WHS-002" ∈ order_numbers
    (orders (run [(5, SoftDelete "WHS-002" (Some "manager"))] duplicated_number_state))).
  { vm_compute. apply list_elem_of_here. }
  assert (H2 : "WHS-002" ∈ order_numbers
    (deletedOrders (run [(5, SoftDelete "WHS-002" (Some "manager"))] duplicated_number_state))).
  { vm_compute. apply list_elem_of_further, list_elem_of_here. }
  split_and!; [|exact I|exact H1|exact H2|].
  - intros n Hn Hbin. vm_compute in Hn, Hbin.
    apply list_elem_of_singleton in Hbin as ->.
    apply elem_of_cons in Hn as [Hn|Hn]; [discriminate|].
    apply list_elem_of_singleton in Hn. discriminate.
  - intros Hdisj. exact (Hdisj _ H1 H2).
Qed.

Lemma run_numbers_distinct trace : ∀ st,
  Forall (λ c, ¬ is_create c.2) trace →
  numbers_distinct st → numbers_distinct (run trace st).
Proof.
  induction trace as [|[now r] trace IH]; intros st Hall Hst; [done|].
  apply Forall_cons in Hall as [Hr Hall]. cbn.
  apply IH.
  - exact Hall.
  - apply handle_numbers_distinct; [exact Hr|exact Hst].
Qed.

Lemma recycle_request_not_create r : recycle_request r → ¬ is_create r.
Proof. destruct r; cbn; tauto. Qed.

(** C4, amended: starting from a state where the order numbers are pairwise
    distinct over the two stores together (no number twice in a store, none
    in both), after every prefix of every sequence of soft deletes,
    restores and permanent deletes the order numbers are still pairwise
    distinct, so that none is in both stores. *)
Theorem recycle_requests_keep_stores_disjoint trace st k :
  Forall (λ c, recycle_request c.2) trace →
  numbers_distinct st →
  numbers_distinct (run (take k trace) st) ∧
  stores_disjoint (run (take k trace) st).
Proof.
  intros Hall Hst.
  assert (numbers_distinct (run (take k trace) st)) as Hk.
  { apply run_numbers_distinct; [|done].
    apply Forall_take. eapply Forall_impl; [exact Hall|].
    intros c. apply recycle_request_not_create. }
  split; [done|]. by apply numbers_distinct_disjoint.
Qed.

Lemma recycle_requests_keep_stores_disjoint_witness :
  stores_disjoint
    (run [(4, SoftDelete "WHS-001" (Some "manager"));
          (5, Restore "WHS-001" None);
          (6, SoftDelete "WHS-001" None);
          (7, PermanentlyDelete true "WHS-001" None)] two_approvals_state).
Proof.
  apply (recycle_requests_keep_stores_disjoint
           [(4, SoftDelete "WHS-001" (Some "manager"));
            (5, Restore "WHS-001" None);
            (6, SoftDelete "WHS-001" None);
            (7, PermanentlyDelete true "WHS-001" None)] two_approvals_state 4).
  - repeat (apply Forall_cons; split; [exact I|]). apply Forall_nil_2.
  - unfold numbers_distinct. vm_compute.
    apply NoDup_cons. split; [apply not_elem_of_nil|apply NoDup_nil_2].
Defined.

(** *** Entries of the recycle bin *)

(** An entry of the bin after a request was in the bin before it, or is the
    object that a soft delete has just put there. *)
Lemma handle_bin_entries now r st e :
  e ∈ deletedOrders (handle now r st).1 →
  e ∈ deletedOrders st ∨
  ∃ n staffName i o,
    r = SoftDelete n staffName ∧
    findIndex n (orders st) = Some (i, o) ∧
    status e = Some "deleted" ∧ original_status e = status o.
Proof.
  destruct r as [| n s staff inv | n staff | n staff | n staff | ok n staff | ok]; cbn.
  - by left.
  - destruct (updateStatus_numbers now n s staff inv st) as [_ ->]. by left.
  - destruct (addApproval_numbers now n staff st) as [_ ->]. by left.
  - destruct (findIndex n (orders st)) as [[i o]|] eqn:E.
    + rewrite (softDelete_found _ _ _ _ _ _ E). cbn.
      intros [Hin| ->%list_elem_of_singleton]%elem_of_app; [by left|].
      right. by exists n, staff, i, o.
    + unfold softDelete. rewrite E. by left.
  - destruct (findIndex n (deletedOrders st)) as [[i e']|] eqn:E.
    + rewrite (restore_found _ _ _ _ _ _ E). cbn.
      intros Hin%list_elem_of_delete_inv. by left.
    + unfold restore. rewrite E. by left.
  - destruct (findIndex n (deletedOrders st)) as [[i e']|] eqn:E.
    + destruct (permanentlyDelete_found now ok n staff st i e' E) as [_ ->].
      intros Hin%list_elem_of_delete_inv. by left.
    + unfold permanentlyDelete. rewrite E. by left.
  - destruct (autoCleanup_effect (host_zone ok) now (host_disk_ok ok) st) as (-> & _).
    intros [_ Hin]%list_elem_of_filter. by left.
Qed.

(** C9: the object that a soft delete appends to the recycle bin has its
    [status] overwritten with [deleted], a fourth change next to the three
    metadata fields [deleted_at], [deleted_by] and [original_status], the
    last of which holds the status before the deletion; no request changes
    an entry of the bin or adds one in another way, so that every entry
    keeps the status [deleted] for as long as it is in the bin. *)
Theorem softDelete_entry_status_deleted :
  (∀ now n staffName st i o,
     findIndex n (orders st) = Some (i, o) →
     ∃ e, deletedOrders (softDelete now n staffName st).1 = deletedOrders st ++ [e] ∧
          status e = Some "deleted" ∧
          original_status e = status o ∧
          deleted_at e = Some now ∧
          deleted_by e = Some (Js.or_default staffName "manager") ∧
          same_order_data o e) ∧
  (∀ now r st e,
     e ∈ deletedOrders (handle now r st).1 →
     e ∈ deletedOrders st ∨
     ∃ n staffName i o,
       r = SoftDelete n staffName ∧
       findIndex n (orders st) = Some (i, o) ∧
       status e = Some "deleted" ∧ original_status e = status o) ∧
  (∀ trace st,
     Forall marked_deleted (deletedOrders st) →
     Forall marked_deleted (deletedOrders (run trace st))).
Proof.
  split_and!.
  - intros now n staffName st i o Hfind.
    rewrite (softDelete_found _ _ _ _ _ _ Hfind). cbn.
    eexists. split; [reflexivity|]. by repeat split.
  - apply handle_bin_entries.
  - induction trace as [|[now r] trace IH]; intros st Hst; [done|].
    cbn. apply IH. apply Forall_forall. intros e He.
    apply handle_bin_entries in He as [He|(n & s & i & o & _ & _ & He & _)].
    + rewrite Forall_forall in Hst. by apply Hst.
    + exact He.
Qed.

Lemma softDelete_entry_status_deleted_witness :
  ∃ e,
    deletedOrders (softDelete 5 "WHS-001" (Some "manager") two_approvals_state).1 = [e] ∧
    status e = Some "deleted" ∧
    original_status e = Some "received" ∧
    deleted_by e = Some "manager".
Proof.
  destruct (proj1 softDelete_entry_status_deleted 5 "WHS-001" (Some "manager")
              two_approvals_state 0%nat
              jane_order)
    as (e & Hbin & Hst & Horig & _ & Hby & _).
  - vm_compute. reflexivity.
  - exists e. split_and!; [exact Hbin|exact Hst|exact Horig|exact Hby].
Defined.

(** ** Creating orders *)

(** The decimal text of a positive number starts with a digit other
    than zero. *)
Lemma pretty_N_go_head x : ∀ s, (0 < x)%N →
  ∃ c r, pretty_N_go x s = String c r ∧ c ≠ "0"%char.
Proof.
  induction (N.lt_wf_0 x) as [x _ IH]; intros s Hx.
  rewrite pretty_N_go_step by done.
  assert (x < 10 ∨ 10 ≤ x)%N as [Hlt|Hge] by lia.
  - rewrite N.div_small, pretty_N_go_0 by done.
    rewrite N.mod_small by done.
    eexists _, _. split; [reflexivity|].
    unfold pretty_N_char. repeat case_match; (done || lia).
  - apply IH.
    + apply N.div_lt; lia.
    + apply N.div_str_pos. lia.
Qed.

Lemma String_of_nat_head n : (0 < n)%nat →
  ∃ c r, Js.String_of_nat n = String c r ∧ c ≠ "0"%char.
Proof.
  intros Hn. unfold Js.String_of_nat, pretty, pretty_nat, pretty, pretty_N.
  rewrite decide_False by lia. apply pretty_N_go_head. lia.
Qed.

Lemma repeat_zero_inj k1 : ∀ k2 s1 s2 c1 r1 c2 r2,
  s1 = String c1 r1 → c1 ≠ "0"%char →
  s2 = String c2 r2 → c2 ≠ "0"%char →
  Js.repeat_char "0" k1 +:+ s1 = Js.repeat_char "0" k2 +:+ s2 → s1 = s2.
Proof.
  induction k1 as [|k1 IH]; intros [|k2] s1 s2 c1 r1 c2 r2 -> H1 -> H2; cbn.
  - done.
  - intros [= -> _]. done.
  - intros [= <- _]. done.
  - intros [= H]. by eapply IH.
Qed.

(** Padding keeps the sequence numbers apart. *)
Lemma padded_sequence_inj m n :
  (0 < m)%nat → (0 < n)%nat →
  Js.padStart (Js.String_of_nat m) 3 "0" = Js.padStart (Js.String_of_nat n) 3 "0" →
  m = n.
Proof.
  intros Hm Hn. unfold Js.padStart.
  destruct (String_of_nat_head m Hm) as (c1 & r1 & E1 & H1).
  destruct (String_of_nat_head n Hn) as (c2 & r2 & E2 & H2).
  intros H. eapply repeat_zero_inj in H; [|done..].
  by apply (inj pretty) in H.
Qed.

(** While orders are only created, the numbers handed out are the
    consecutive sequence numbers. *)
Lemma createOrder_numbers trace : ∀ st,
  Forall (λ c, is_create c.2) trace →
  order_numbers (orders (run trace st)) =
    order_numbers (orders st) ++
      ((λ k, "WHS-" +:+ Js.padStart (Js.String_of_nat k) 3 "0")
         <$> seq (S (length (orders st))) (length trace)).
Proof.
  induction trace as [|[now r] trace IH]; intros st Hall.
  - cbn. by rewrite app_nil_r.
  - apply Forall_cons in Hall as [Hr Hall].
    destruct r; try done. cbn [run handle].
    rewrite IH by done. cbn. unfold order_numbers.
    rewrite fmap_app, length_app, <- app_assoc. cbn.
    unfold generateOrderNumber. rewrite !Nat.add_1_r. done.
Qed.

(** Starting from the empty store, any sequence of creations alone yields
    pairwise distinct order numbers. *)
Lemma createOrder_only_numbers_distinct trace :
  Forall (λ c, is_create c.2) trace →
  NoDup (order_numbers (orders (run trace initial_state))).
Proof.
  intros Hall. rewrite createOrder_numbers by done. cbn.
  apply NoDup_fmap_2_strong; [|apply NoDup_seq].
  intros m n Hm%elem_of_seq Hn%elem_of_seq [= H].
  apply padded_sequence_inj in H; [done|lia..].
Qed.

(** C1, evaluated on the code: two orders are created, the first is moved
    to the recycle bin and a third is created; the sequence number is the
    length of the Order Store plus one, so the third order gets the number
    of the second, and the Order Store holds [WHS-002] twice. *)
Theorem generateOrderNumber_repeats_after_softDelete :
  order_numbers (orders duplicated_number_state) = ["WHS-002"; "WHS-002"] ∧
  ¬ NoDup (order_numbers (orders duplicated_number_state)).
Proof.
  assert (H : order_numbers (orders duplicated_number_state) = ["WHS-002"; "WHS-002"])
    by (vm_compute; reflexivity).
  split; [exact H|]. rewrite H. intros Hnd.
  apply NoDup_cons in Hnd as [Hnot _]. apply Hnot, list_elem_of_here.
Qed.

(** C7, as stated, fails: a request without any of the required fields is
    answered with a new order number, and the order is in the Order
    Store. *)
Lemma createOrder_no_validation_counterexample :
  (createOrder 1 None None None None None initial_state).2 = RCreated "WHS-001" ∧
  order_numbers (orders (createOrder 1 None None None None None initial_state).1)
    = ["WHS-001"].
Proof. split; vm_compute; reflexivity. Qed.

(** C7, amended: the creation of an order checks nothing and never fails,
    in either server: whatever fields are present or absent, it answers
    with the generated order number and appends exactly one order to the
    Order Store, whose fields are the fields of the request, absent where
    they are absent, with status [received], no approvals and a one-entry
    status history. *)
Theorem createOrder_always_appends now customerName customerPhone items0
    paymentMethod staffName st :
  ((createOrder now customerName customerPhone items0 paymentMethod staffName st).2
     = RCreated (generateOrderNumber st) ∧
   ∃ o,
     orders (createOrder now customerName customerPhone items0 paymentMethod
               staffName st).1 = orders st ++ [o] ∧
     order_number o = generateOrderNumber st ∧
     created_from now customerName customerPhone items0 paymentMethod staffName o) ∧
  ∀ day month,
    (Original.createOrder now day month customerName customerPhone items0
       paymentMethod staffName st).2
      = RCreated (Original.generateOrderNumber day month st) ∧
    ∃ o,
      orders (Original.createOrder now day month customerName customerPhone items0
                paymentMethod staffName st).1 = orders st ++ [o] ∧
      order_number o = Original.generateOrderNumber day month st ∧
      created_from now customerName customerPhone items0 paymentMethod staffName o.
Proof.
  split.
  - split; [reflexivity|]. eexists. split; [reflexivity|]. by repeat split.
  - intros day month.
    split; [reflexivity|]. eexists. split; [reflexivity|]. by repeat split.
Qed.

(** ** Search *)

Section Search.
Implicit Types (s q : string) (o : order).

Lemma startsWith_spec q : ∀ s, Js.startsWith s q = true ↔ ∃ b, s = q +:+ b.
Proof.
  induction q as [|c q IH]; intros s; cbn.
  - split; [|done]. intros _. by exists s.
  - destruct s as [|c' s]; cbn.
    + split; [done|]. by intros (b & [=]).
    + destruct (decide (c' = c)) as [->|Hne].
      * rewrite IH. split.
        -- intros (b & ->). by exists b.
        -- intros (b & [= ->]). by exists b.
      * split; [done|]. intros (b & [= ? _]). done.
Qed.

Lemma includes_spec s : ∀ q, Js.includes s q = true ↔ substring q s.
Proof.
  unfold substring. induction s as [|c s IH]; intros q; cbn.
  - destruct (Js.startsWith "" q) eqn:E.
    + apply startsWith_spec in E as (b & E). split; [|done].
      intros _. by exists "", b.
    + split; [done|]. intros (a & b & E'). exfalso.
      destruct a; [|done]. cbn in E'.
      assert (Js.startsWith "" q = true) by (apply startsWith_spec; eauto).
      congruence.
  - destruct (Js.startsWith (String c s) q) eqn:E.
    + apply startsWith_spec in E as (b & E). split; [|done].
      intros _. by exists "", b.
    + rewrite IH. split.
      * intros (a & b & ->). by exists (String c a), b.
      * intros (a & b & E'). destruct a as [|c' a]; cbn in E'.
        -- assert (Js.startsWith (String c s) q = true)
             by (apply startsWith_spec; eauto).
           congruence.
        -- injection E' as -> ->. by exists a, b.
Qed.

#[global] Instance substring_dec q s : Decision (substring q s).
Proof.
  destruct (Js.includes s q) eqn:E.
  - left. by apply includes_spec.
  - right. intros H%includes_spec. congruence.
Defined.

#[global] Instance search_matches_dec q o : Decision (search_matches q o).
Proof.
  unfold search_matches, ci_substring.
  destruct (customer_name o) as [name|], (customer_phone o) as [phone|].
  - destruct (decide (substring (Js.toLowerCase q) (Js.toLowerCase name))).
    { left. left. by exists name. }
    destruct (decide (substring (Js.toLowerCase q) (Js.toLowerCase (order_number o)))).
    { left. right. by left. }
    destruct (decide (substring q phone)).
    { left. right. right. by exists phone. }
    right. intros [(x & [= <-] & ?)|[?|(x & [= <-] & ?)]]; done.
  - destruct (decide (substring (Js.toLowerCase q) (Js.toLowerCase name))).
    { left. left. by exists name. }
    destruct (decide (substring (Js.toLowerCase q) (Js.toLowerCase (order_number o)))).
    { left. right. by left. }
    right. intros [(x & [= <-] & ?)|[?|(x & [=] & ?)]]; done.
  - destruct (decide (substring (Js.toLowerCase q) (Js.toLowerCase (order_number o)))).
    { left. right. by left. }
    destruct (decide (substring q phone)).
    { left. right. right. by exists phone. }
    right. intros [(x & [=] & ?)|[?|(x & [= <-] & ?)]]; done.
  - destruct (decide (substring (Js.toLowerCase q) (Js.toLowerCase (order_number o)))).
    { left. right. by left. }
    right. intros [(x & [=] & ?)|[?|(x & [=] & ?)]]; done.
Defined.

(** On an order with a name and a phone the callback does not throw, and
    decides the match. *)
Lemma search_match_spec q o :
  has_contact o →
  search_match q o = Some (bool_decide (search_matches q o)).
Proof.
  intros [[name Hname] [phone Hphone]].
  unfold search_match. rewrite Hname, Hphone.
  destruct (Js.includes (Js.toLowerCase name) (Js.toLowerCase q)) eqn:E1.
  { apply includes_spec in E1. rewrite bool_decide_eq_true_2; [done|].
    left. by exists name. }
  destruct (Js.includes (Js.toLowerCase (order_number o)) (Js.toLowerCase q)) eqn:E2.
  { apply includes_spec in E2. rewrite bool_decide_eq_true_2; [done|].
    right. by left. }
  destruct (Js.includes phone q) eqn:E3.
  { apply includes_spec in E3. rewrite bool_decide_eq_true_2; [done|].
    right. right. by exists phone. }
  rewrite bool_decide_eq_false_2; [done|].
  unfold search_matches, ci_substring. rewrite Hname, Hphone.
  intros [(x & [= <-] & H%includes_spec)|[H%includes_spec|(x & [= <-] & H%includes_spec)]];
    congruence.
Qed.

Lemma filter_throwing_total {A} (f : A → option bool) (P : A → Prop)
    `{!∀ x, Decision (P x)} (l : list A) :
  Forall (λ x, f x = Some (bool_decide (P x))) l →
  filter_throwing f l = Some (filter P l).
Proof.
  induction 1 as [|x l Hx Hl IH]; [done|].
  cbn [filter_throwing]. rewrite Hx, IH, filter_cons.
  by case_bool_decide; case_decide.
Qed.

Lemma empty_query_matches o : search_matches "" o.
Proof. right. left. by exists "", (Js.toLowerCase (order_number o)). Qed.
End Search.

(** C8, as stated, fails: the digits of the query are the digits of the
    phone of the order, so the order matches as the claim has it, and the
    search does not return it. *)
Lemma searchOrders_digits_counterexample :
  ∃ o, o ∈ orders dashed_phone_state ∧
       search_matches_with_digits "0771234567" o ∧
       searchOrders (Some "0771234567") None dashed_phone_state = ROrders [].
Proof.
  eexists. split_and!.
  - vm_compute. apply list_elem_of_here.
  - right. right. eexists. split; [reflexivity|]. right. by exists "", "".
  - vm_compute. reflexivity.
Qed.

(** The customer lookup, unlike the search, compares the digits. *)
Example customerLookupMatch_compares_digits :
  ∃ o, orders dashed_phone_state = [o] ∧
       customerLookupMatch "0771234567" o = Some true ∧
       search_match "0771234567" o = Some false.
Proof. eexists. split_and!; vm_compute; reflexivity. Qed.

(** C8, amended: when every order of the Order Store has a customer name
    and a customer phone, the search for a query returns, in the order of
    the store, exactly the orders where the query occurs in the customer
    name or in the order number with letter case ignored, or occurs as it
    is in the customer phone; the digits of the query and of the phone are
    not compared. *)
Theorem searchOrders_returns_matches q st :
  Forall has_contact (orders st) →
  searchOrders (Some q) None st = ROrders (filter (search_matches q) (orders st)).
Proof.
  intros Hall. unfold searchOrders. cbn.
  destruct (decide (q = "")) as [->|Hq].
  - f_equal. symmetry. induction (orders st) as [|o os IH]; [done|].
    apply Forall_cons in Hall as [_ Hall].
    rewrite filter_cons_True by apply empty_query_matches. by rewrite IH.
  - rewrite (filter_throwing_total _ (search_matches q)); [done|].
    eapply Forall_impl; [exact Hall|]. intros o Ho. by apply search_match_spec.
Qed.

Lemma searchOrders_returns_matches_witness :
  searchOrders (Some "jAn") None two_approvals_state
    = ROrders (filter (search_matches "jAn") (orders two_approvals_state)).
Proof.
  apply (searchOrders_returns_matches "jAn" two_approvals_state).
  vm_compute. apply Forall_cons. split; [|apply Forall_nil_2].
  split; eexists; reflexivity.
Defined.

(** ** Approvals among the other requests *)

Lemma createOrder_orders now cn cp it pm sn st :
  ∃ o, orders (createOrder now cn cp it pm sn st).1 = orders st ++ [o] ∧
       order_number o = generateOrderNumber st ∧
       created_from now cn cp it pm sn o.
Proof. eexists. split_and!; [reflexivity|reflexivity|by repeat split]. Qed.

Lemma updateStatus_orders now n s staff inv st i o :
  findIndex n (orders st) = Some (i, o) →
  ∃ o', orders (updateStatus now n s staff inv st).1 = <[i:=o']> (orders st) ∧
        order_number o' = order_number o ∧
        status o' = s ∧
        status_history o' =
          status_history o ++
            [{| h_status := s; h_timestamp := now; h_staff := staff |}].
Proof.
  intros Hfind. unfold updateStatus. rewrite Hfind.
  eexists. split; [reflexivity|].
  destruct inv as [v|]; [destruct (Js.truthy (Some v))|]; done.
Qed.

Lemma approve_order_number now staffName o o' :
  approve_order now staffName o = Some o' → order_number o' = order_number o.
Proof.
  unfold approve_order. destruct (list_find _ (approvals o)); [done|].
  intros [= <-]. by case_match.
Qed.

(** A request that neither updates nor soft-deletes the order numbered [n]
    leaves the status and the history of that order alone, when its status
    is not [received]. *)
Lemma handle_keeps_settled_order now r st n i o :
  ¬ rewrites_status n r →
  findIndex n (orders st) = Some (i, o) →
  status o ≠ Some "received" →
  ∃ j o', findIndex n (orders (handle now r st).1) = Some (j, o') ∧
          status o' = status o ∧ status_history o' = status_history o.
Proof.
  intros Hr Hfind Hst.
  assert (Hsame : ∃ j o', findIndex n (orders st) = Some (j, o') ∧
            status o' = status o ∧ status_history o' = status_history o)
    by (by exists i, o).
  destruct r as [cn cp it pm sn | m s staff inv | m staff | m staff | m staff
                | ok m staff | host]; cbn [handle]; cbn in Hr.
  - destruct (createOrder_orders now cn cp it pm sn st) as (o1 & -> & _).
    exists i, o. split; [by apply findIndex_app_l|done].
  - destruct (findIndex m (orders st)) as [[j oj]|] eqn:E.
    + destruct (updateStatus_orders now m s staff inv st j oj E) as (o1 & -> & Hn1 & _).
      apply findIndex_lookup in E as [Hj Hm].
      rewrite (findIndex_insert_ne n _ j oj o1) by congruence. done.
    + unfold updateStatus. by rewrite E.
  - destruct (decide (m = n)) as [->|Hne].
    + destruct (addApproval_not_received now n staff st i o Hfind Hst)
        as (o1 & ? & ? & ?). by exists i, o1.
    + unfold addApproval.
      destruct (findIndex m (orders st)) as [[j oj]|] eqn:E; [|done].
      destruct (approve_order now staff oj) as [o1|] eqn:Ea; [|done].
      cbn [fst orders logAudit saveOrders]. apply findIndex_lookup in E as [Hj Hm].
      rewrite (findIndex_insert_ne n _ j oj o1); [done..| |congruence].
      by eapply approve_order_number.
  - destruct (findIndex m (orders st)) as [[j oj]|] eqn:E.
    + rewrite (softDelete_found _ _ _ _ _ _ E). cbn.
      apply findIndex_lookup in E as [Hj Hm].
      destruct (findIndex_delete_ne n (orders st) i o j oj Hfind Hj) as [i' Hi'];
        [congruence|].
      by exists i', o.
    + unfold softDelete. by rewrite E.
  - destruct (findIndex m (deletedOrders st)) as [[j e]|] eqn:E.
    + rewrite (restore_found _ _ _ _ _ _ E). cbn.
      exists i, o. split; [by apply findIndex_app_l|done].
    + unfold restore. by rewrite E.
  - destruct (findIndex m (deletedOrders st)) as [[j e]|] eqn:E.
    + destruct (permanentlyDelete_found now ok m staff st j e E) as [-> _]. done.
    + unfold permanentlyDelete. by rewrite E.
  - cbn [fst].
    destruct (autoCleanup_effect (host_zone host) now (host_disk_ok host) st)
      as (_ & -> & _).
    done.
Qed.

Lemma run_keeps_settled_order n trace : ∀ st i o,
  Forall (λ c, ¬ rewrites_status n c.2) trace →
  findIndex n (orders st) = Some (i, o) →
  status o ≠ Some "received" →
  ∃ j o', findIndex n (orders (run trace st)) = Some (j, o') ∧
          status o' = status o ∧ status_history o' = status_history o.
Proof.
  induction trace as [|[t r] trace IH]; intros st i o Hall Hfind Hst.
  - by exists i, o.
  - apply Forall_cons in Hall as [Hr Hall]. cbn in Hr. cbn [run].
    destruct (handle_keeps_settled_order t r st n i o Hr Hfind Hst)
      as (j & o1 & Hfind1 & Hst1 & Hh1).
    destruct (IH _ j o1 Hall Hfind1) as (k & o2 & ? & ? & ?); [by rewrite Hst1|].
    exists k, o2. split_and!; [done|congruence..].
Qed.

(** The claim that an approval after the promotion never promotes again
    fails: the guard of the promotion is the status alone.  The third
    approval promotes the order and appends one [SYSTEM] entry; a status
    update puts the order back to [received]; the fourth approval, answered
    with the count 4, sets the status to [approved] again and appends a
    second [SYSTEM] entry. *)
Example addApproval_promotes_again_after_reset :
  let st3 := (addApproval 4 "WHS-001" (Some "staff3") two_approvals_state).1 in
  let st5 :=
    (updateStatus 5 "WHS-001" (Some "received") (Some "staff1") None st3).1 in
  ∃ o3 o5 o6,
    findIndex "WHS-001" (orders st3) = Some (0%nat, o3) ∧
    status o3 = Some "approved" ∧
    h_staff <$> status_history o3 = [Some "staff1"; Some "SYSTEM"] ∧
    findIndex "WHS-001" (orders st5) = Some (0%nat, o5) ∧
    status o5 = Some "received" ∧
    length (approvals o5) = 3%nat ∧
    (addApproval 6 "WHS-001" (Some "staff4") st5).2 = RApprovals 4 ∧
    findIndex "WHS-001" (orders (addApproval 6 "WHS-001" (Some "staff4") st5).1)
      = Some (0%nat, o6) ∧
    status o6 = Some "approved" ∧
    status_history o6 =
      status_history o5 ++
        [{| h_status := Some "approved"; h_timestamp := 6;
            h_staff := Some "SYSTEM" |}].
Proof. cbn zeta. eexists _, _, _. split_and!; vm_compute; reflexivity. Qed.

(** C2, amended: an approval by a staff member who has not approved the
    order yet answers the new approval count.  When it brings the count to
    three or more while the status is [received], the status becomes
    [approved] and exactly one history entry, authored by [SYSTEM], is
    appended; when the count stays below three or the status is not
    [received], status and history stay as they are.  After an approval
    that leaves the order at a status other than [received] (as the
    promoting approval does), whatever requests follow, short of a status
    update or a soft delete of that order number, the order keeps that
    status and that history: further approvals neither promote again nor
    append another entry.  (A status update back to [received] re-arms the
    promotion.) *)
Theorem addApproval_promotes_while_received now orderNumber staffName st i o :
  findIndex orderNumber (orders st) = Some (i, o) →
  ¬ has_approved staffName o →
  ∃ o',
    (addApproval now orderNumber staffName st).2
      = RApprovals (S (length (approvals o))) ∧
    orders (addApproval now orderNumber staffName st).1 = <[i:=o']> (orders st) ∧
    length (approvals o') = S (length (approvals o)) ∧
    ((2 ≤ length (approvals o))%nat → status o = Some "received" →
       status o' = Some "approved" ∧
       status_history o' =
         status_history o ++
           [{| h_status := Some "approved"; h_timestamp := now;
               h_staff := Some "SYSTEM" |}]) ∧
    ((length (approvals o) < 2)%nat ∨ status o ≠ Some "received" →
       status o' = status o ∧ status_history o' = status_history o) ∧
    (status o' ≠ Some "received" →
     ∀ trace, Forall (λ c, ¬ rewrites_status orderNumber c.2) trace →
       ∃ j o'',
         findIndex orderNumber
           (orders (run trace (addApproval now orderNumber staffName st).1))
           = Some (j, o'') ∧
         status o'' = status o' ∧ status_history o'' = status_history o').
Proof.
  intros Hfind Hfresh.
  destruct (approve_order_fresh now staffName o Hfresh) as (o' & Happ & Hap' & _).
  pose proof (approve_order_number _ _ _ _ Happ) as Hn'.
  assert (Hlen : length (approvals o') = S (length (approvals o))).
  { rewrite Hap', length_app. cbn. lia. }
  assert (Hrun : addApproval now orderNumber staffName st =
            (logAudit now "APPROVAL_ADDED" orderNumber (Js.show staffName)
               ("Approval " +:+ Js.String_of_nat (length (approvals o')) +:+ "/3")
               (saveOrders (<[i:=o']> (orders st)) st),
             RApprovals (length (approvals o')))).
  { unfold addApproval. by rewrite Hfind, Happ. }
  exists o'. rewrite Hrun. cbn [fst snd].
  split_and!; [by rewrite Hlen|done|done|..].
  - intros Hcount Hst. revert Happ. unfold approve_order.
    destruct (list_find _ (approvals o)); [done|]. intros [= <-]. cbn.
    rewrite Hst, length_app. cbn.
    rewrite !bool_decide_eq_true_2 by (done || lia). done.
  - intros Hno. revert Happ. unfold approve_order.
    destruct (list_find _ (approvals o)); [done|]. intros [= <-]. cbn.
    rewrite length_app. cbn.
    destruct Hno as [Hcount|Hst].
    + rewrite (bool_decide_eq_false_2 (3 ≤ _)%nat) by lia. done.
    + rewrite (bool_decide_eq_false_2 (status o = _)) by done.
      by rewrite andb_false_r.
  - intros Hst' trace Hall.
    apply (run_keeps_settled_order orderNumber trace _ i o'); [done| |done].
    cbn. apply findIndex_insert with o; [done|].
    rewrite Hn'. by apply findIndex_lookup in Hfind as [_ ?].
Qed.

Lemma addApproval_promotes_while_received_witness :
  ∃ o3,
    (addApproval 4 "WHS-001" (Some "staff3") two_approvals_state).2 = RApprovals 3 ∧
    orders (addApproval 4 "WHS-001" (Some "staff3") two_approvals_state).1
      = <[0%nat:=o3]> (orders two_approvals_state) ∧
    status o3 = Some "approved".
Proof.
  destruct (addApproval_promotes_while_received 4 "WHS-001" (Some "staff3")
              two_approvals_state 0%nat jane_order)
    as (o3 & H1 & H2 & _ & H3 & _).
  - vm_compute. reflexivity.
  - intros (a & Ha & Hs). cbn in Ha.
    apply elem_of_cons in Ha as [->|Ha]; [done|].
    apply elem_of_cons in Ha as [->|Ha]; [done|].
    by apply elem_of_nil in Ha.
  - exists o3. split_and!; [exact H1|exact H2|].
    apply H3; [cbn; lia|reflexivity].
Defined.

(** * Further properties of the handlers *)

#[global] Instance query_matches_dec q o : Decision (query_matches q o).
Proof. destruct q; apply _. Defined.

#[global] Instance lookup_matches_dec q o : Decision (lookup_matches q o).
Proof.
  unfold lookup_matches. destruct (customer_phone o) as [phone|].
  - destruct (decide (Js.toLowerCase (order_number o) = Js.toLowerCase q)).
    { by left; left. }
    destruct (decide (substring q phone)).
    { left. right. exists phone. by split; [|left]. }
    destruct (decide (substring (Js.digits_only q) (Js.digits_only phone))).
    { left. right. exists phone. by split; [|right]. }
    right. intros [?|(x & [= <-] & [?|?])]; done.
  - destruct (decide (Js.toLowerCase (order_number o) = Js.toLowerCase q)).
    { by left; left. }
    right. intros [?|(x & [=] & _)]; done.
Defined.

Ltac handler_cases r :=
  destruct r; cbn [handle];
  unfold createOrder, updateStatus, addApproval, softDelete, restore,
    permanentlyDelete, exportOrderData;
  repeat match goal with
  | |- context [findIndex ?n ?l] =>
      let E := fresh "Efind" in destruct (findIndex n l) as [[? ?]|] eqn:E
  | |- context [approve_order ?t ?s ?o] =>
      let E := fresh "Eapp" in destruct (approve_order t s o) eqn:E
  | |- context [if ?b then _ else _] => is_var b; destruct b
  end; cbn.

(** X1: a request answered with "not found" or "already approved" has no
    effect at all: the stores, the audit log and the exports are as before. *)
Theorem rejected_request_changes_nothing now r st :
  rejected (handle now r st).2 → (handle now r st).1 = st.
Proof.
  unfold rejected. handler_cases r; try done; intros [?|?]; discriminate.
Qed.

Lemma rejected_request_changes_nothing_witness :
  (handle 9 (Restore "WHS-009" None) two_approvals_state).1 = two_approvals_state.
Proof.
  apply (rejected_request_changes_nothing 9 (Restore "WHS-009" None)
           two_approvals_state).
  left. vm_compute. reflexivity.
Defined.

Lemma handle_logs_grow now r st :
  auditLog st `prefix_of` auditLog (handle now r st).1 ∧
  dom (exportsDir st) ⊆ dom (exportsDir (handle now r st).1).
Proof.
  destruct r as [| | | | | |host].
  7: { cbn.
       destruct (autoCleanup_effect (host_zone host) now (host_disk_ok host) st)
         as (_ & _ & -> & ->).
       split; [by eexists|].
       destruct (host_disk_ok host); [apply write_exports_dom|done]. }
  all: cbn [handle];
    unfold createOrder, updateStatus, addApproval, softDelete, restore,
      permanentlyDelete, exportOrderData;
    repeat match goal with
    | |- context [findIndex ?n ?l] => destruct (findIndex n l) as [[? ?]|]
    | |- context [approve_order ?t ?s ?o] => destruct (approve_order t s o)
    | |- context [if ?b then _ else _] => is_var b; destruct b
    end; cbn; split; try done; try (by eexists); try (by exists []);
    apply dom_insert_subseteq.
Qed.

(** X2: whatever requests are served, the audit log only grows at its end:
    what was written stays, in place; and no export file is ever removed
    (a later export may replace the content of a file of the same
    name). *)
Theorem audit_log_append_only_exports_kept trace : ∀ st,
  auditLog st `prefix_of` auditLog (run trace st) ∧
  dom (exportsDir st) ⊆ dom (exportsDir (run trace st)).
Proof.
  induction trace as [|[now r] trace IH]; intros st; [done|].
  cbn. destruct (handle_logs_grow now r st) as [Ha He].
  destruct (IH (handle now r st).1) as [Ha' He'].
  split; etrans; done.
Qed.

(** X3: a request that is accepted appends exactly one audit record, stamped
    with the time of the request, tagged with the action of the request
    and filed under its order number (the generated one for a creation). *)
Theorem accepted_request_logs_once now r st :
  ¬ is_cleanup r → ¬ rejected (handle now r st).2 →
  ∃ e, auditLog (handle now r st).1 = auditLog st ++ [e] ∧
       au_timestamp e = now ∧
       au_action e = audit_action r ∧
       au_order_id e = audit_subject r st.
Proof.
  unfold rejected. intros Hc.
  handler_cases r; try done; intros Hrej;
    try (by destruct Hrej; auto); by eexists.
Qed.

Lemma accepted_request_logs_once_witness :
  ∃ e, auditLog (handle 4 (AddApproval "WHS-001" (Some "staff3"))
                   two_approvals_state).1
         = auditLog two_approvals_state ++ [e] ∧
       au_action e = "APPROVAL_ADDED" ∧ au_order_id e = "WHS-001".
Proof.
  destruct (accepted_request_logs_once 4 (AddApproval "WHS-001" (Some "staff3"))
              two_approvals_state) as (e & Hlog & _ & Haction & Hid).
  - intros [].
  - intros [H|H]; vm_compute in H; discriminate H.
  - exists e. split_and!; [exact Hlog|exact Haction|exact Hid].
Defined.

(** X4: the number of orders held in the two stores together grows by one
    with a creation, shrinks by one with an accepted permanent delete, and
    is unchanged by every other request, a soft delete or a restore
    included. *)
Theorem orders_held_accounting now r st :
  ¬ is_cleanup r →
  Z.of_nat (orders_held (handle now r st).1) =
    Z.of_nat (orders_held st) + held_change r (handle now r st).2.
Proof.
  unfold orders_held. intros Hc.
  handler_cases r; try done;
    repeat match goal with
    | H : findIndex _ _ = Some _ |- _ =>
        apply findIndex_lookup in H as [H _];
        pose proof (lookup_lt_Some _ _ _ H);
        pose proof (length_delete _ _ (mk_is_Some _ _ H))
    end;
    rewrite ?length_app, ?length_insert; cbn; lia.
Qed.

Lemma orders_held_accounting_witness :
  Z.of_nat (orders_held (handle 4 (SoftDelete "WHS-001" None) two_approvals_state).1)
    = Z.of_nat (orders_held two_approvals_state)
      + held_change (SoftDelete "WHS-001" None)
          (handle 4 (SoftDelete "WHS-001" None) two_approvals_state).2.
Proof.
  apply (orders_held_accounting 4 (SoftDelete "WHS-001" None) two_approvals_state).
  intros [].
Defined.

Section EveryOrder.
Variable P : order → Prop.
Hypothesis P_set_status : ∀ o v, P o → P (set_status v o).
Hypothesis P_set_invoice_number : ∀ o v, P o → P (set_invoice_number v o).
Hypothesis P_push_history : ∀ o h, P o → P (push_history h o).
Hypothesis P_set_deletion : ∀ o a b c, P o → P (set_deletion a b c o).
Hypothesis P_approve : ∀ now s o o', P o → approve_order now s o = Some o' → P o'.
Hypothesis P_created : ∀ now st cn cp it pm sn,
  P {| order_number := generateOrderNumber st;
       customer_name := cn; customer_phone := cp; items := it;
       payment_method := pm; invoice_number := "";
       status := Some "received"; created_at := now; created_by := sn;
       approvals := [];
       status_history :=
         [{| h_status := Some "received"; h_timestamp := now; h_staff := sn |}];
       deleted_at := None; deleted_by := None; original_status := None |}.

Lemma handle_every_order now r st :
  every_order P st → every_order P (handle now r st).1.
Proof.
  unfold every_order. intros [Ho Hd].
  destruct r as [cn cp it pm sn | n s staff inv | n staff | n staff | n staff
                | ok n staff | ok]; cbn [handle].
  - cbn. split; [|done]. apply Forall_app. split; [done|].
    apply Forall_singleton, P_created.
  - unfold updateStatus.
    destruct (findIndex n (orders st)) as [[i o]|] eqn:E; [|done]. cbn.
    split; [|done]. apply findIndex_lookup in E as [Hi _].
    apply Forall_insert; [done|]. apply P_push_history.
    pose proof (Forall_lookup_1 _ _ _ _ Ho Hi) as Po.
    destruct inv as [v|]; cbn; [|by apply P_set_status].
    destruct (decide (v = "")); [|apply P_set_invoice_number];
      by apply P_set_status.
  - unfold addApproval.
    destruct (findIndex n (orders st)) as [[i o]|] eqn:E; [|done].
    destruct (approve_order now staff o) as [o'|] eqn:Ea; [|done]. cbn.
    split; [|done]. apply findIndex_lookup in E as [Hi _].
    apply Forall_insert; [done|].
    eapply P_approve; [|exact Ea]. exact (Forall_lookup_1 _ _ _ _ Ho Hi).
  - destruct (findIndex n (orders st)) as [[i o]|] eqn:E.
    + rewrite (softDelete_found _ _ _ _ _ _ E). cbn.
      apply findIndex_lookup in E as [Hi _].
      split; [by apply Forall_delete|].
      apply Forall_app. split; [done|]. apply Forall_singleton.
      apply P_set_status, P_set_deletion.
      exact (Forall_lookup_1 _ _ _ _ Ho Hi).
    + unfold softDelete. by rewrite E.
  - destruct (findIndex n (deletedOrders st)) as [[i e]|] eqn:E.
    + rewrite (restore_found _ _ _ _ _ _ E). cbn.
      apply findIndex_lookup in E as [Hi _].
      split; [|by apply Forall_delete].
      apply Forall_app. split; [done|]. apply Forall_singleton.
      apply P_set_deletion, P_set_status.
      exact (Forall_lookup_1 _ _ _ _ Hd Hi).
    + unfold restore. by rewrite E.
  - destruct (findIndex n (deletedOrders st)) as [[i e]|] eqn:E.
    + destruct (permanentlyDelete_found now ok n staff st i e E) as [-> ->].
      split; [done|by apply Forall_delete].
    + unfold permanentlyDelete. by rewrite E.
  - cbn [fst]. destruct (autoCleanup_effect (host_zone ok) now (host_disk_ok ok) st) as (-> & -> & _).
    split; [done|]. apply Forall_forall. intros o [_ Hin]%list_elem_of_filter.
    rewrite Forall_forall in Hd. by apply Hd.
Qed.

Lemma run_every_order trace : ∀ st,
  every_order P st → every_order P (run trace st).
Proof.
  induction trace as [|[now r] trace IH]; intros st Hst; [done|].
  cbn. by apply IH, handle_every_order.
Qed.
End EveryOrder.

Lemma approve_order_distinct now s o o' :
  approvals_distinct o → approve_order now s o = Some o' → approvals_distinct o'.
Proof.
  unfold approvals_distinct, approve_order. intros Hnd.
  destruct (list_find _ (approvals o)) as [|] eqn:E; [done|].
  intros [= <-].
  assert (NoDup (a_staff <$> approvals o ++ [{| a_staff := s; a_timestamp := now |}])).
  { rewrite fmap_app. cbn. apply NoDup_app. split_and!; [done| |apply NoDup_singleton].
    intros x Hx ->%list_elem_of_singleton.
    apply list_elem_of_fmap in Hx as (a & Ha & Hin).
    apply list_find_None in E. rewrite Forall_forall in E. by apply (E a). }
  by case_match.
Qed.

(** X5: when no order lists a staff member twice among its approvals, no
    sequence of requests makes one do so, in either store. *)
Theorem approvals_stay_distinct trace st :
  every_order approvals_distinct st →
  every_order approvals_distinct (run trace st).
Proof.
  apply run_every_order; try done.
  - intros. by eapply approve_order_distinct.
  - intros. apply NoDup_nil_2.
Qed.

Lemma approvals_stay_distinct_witness :
  every_order approvals_distinct
    (run [(4, AddApproval "WHS-001" (Some "staff2"));
          (5, AddApproval "WHS-001" (Some "staff3"));
          (6, SoftDelete "WHS-001" None)] two_approvals_state).
Proof.
  apply (approvals_stay_distinct
           [(4, AddApproval "WHS-001" (Some "staff2"));
            (5, AddApproval "WHS-001" (Some "staff3"));
            (6, SoftDelete "WHS-001" None)] two_approvals_state).
  split; [|apply Forall_nil_2].
  apply Forall_singleton. unfold approvals_distinct. vm_compute.
  apply NoDup_cons. split.
  - intros H%list_elem_of_singleton. discriminate H.
  - apply NoDup_singleton.
Defined.











(** *** Cleanups at different times *)

Lemma deleted_since_earlier_threshold T T' o :
  T ≤ T' → deleted_since T' o → deleted_since T o.
Proof. intros HT (d & Hd & Hage). exists d. split; [done|lia]. Qed.

(** X7: a cleanup followed by a second cleanup leaves the recycle bin that
    the second cleanup alone leaves, provided the threshold of the first
    (seven local calendar days before its time) is not after the threshold
    of the second, as it is for a later cleanup on a host whose local clock
    does not change; neither touches the Order Store. *)
Theorem later_cleanup_absorbs_earlier tz t t' ok ok' st :
  sevenDaysBefore tz t ≤ sevenDaysBefore tz t' →
  deletedOrders
    (autoCleanupDeletedOrders tz t' ok' (autoCleanupDeletedOrders tz t ok st))
    = deletedOrders (autoCleanupDeletedOrders tz t' ok' st) ∧
  orders (autoCleanupDeletedOrders tz t' ok' (autoCleanupDeletedOrders tz t ok st))
    = orders st.
Proof.
  intros Ht.
  destruct (autoCleanup_effect tz t' ok' (autoCleanupDeletedOrders tz t ok st))
    as (-> & -> & _).
  destruct (autoCleanup_effect tz t ok st) as (-> & -> & _).
  destruct (autoCleanup_effect tz t' ok' st) as (-> & _).
  split; [|done]. rewrite list_filter_filter. apply list_filter_iff.
  intros o. split; [tauto|]. intros H. split; [done|].
  by apply deleted_since_earlier_threshold with (sevenDaysBefore tz t').
Qed.

Lemma later_cleanup_absorbs_earlier_witness :
  deletedOrders
    (autoCleanupDeletedOrders utc_zone (12 * DAY_MS) true
       (autoCleanupDeletedOrders utc_zone (8 * DAY_MS) false two_in_bin_state))
    = deletedOrders
        (autoCleanupDeletedOrders utc_zone (12 * DAY_MS) true two_in_bin_state).
Proof.
  apply (later_cleanup_absorbs_earlier utc_zone (8 * DAY_MS) (12 * DAY_MS)
           false true two_in_bin_state).
  vm_compute. discriminate.
Defined.

(** *** Statistics of the recycle bin *)

Lemma daysOld_at_least_5 now o d :
  daysOld now o = Some d → (5 ≤ d ↔ five_days_old now o).
Proof.
  unfold daysOld, five_days_old, DAY_MS.
  destruct (deleted_at o) as [t|]; [|done]. intros [= <-]. split.
  - intros H. exists t. split; [done|].
    pose proof (Z.mul_div_le (now - t) (1000 * 60 * 60 * 24) ltac:(lia)). nia.
  - intros (t' & [= <-] & H). apply Z.div_le_lower_bound; lia.
Qed.

Lemma expiring_loop now ds : ∀ acc,
  foldl (expiring_visit now) acc ds
    = (acc + length (filter (five_days_old now) ds))%nat.
Proof.
  induction ds as [|o ds IH]; intros acc; cbn [foldl].
  - rewrite filter_nil. cbn. lia.
  - rewrite IH, filter_cons. unfold expiring_visit.
    destruct (daysOld now o) as [d|] eqn:E.
    + pose proof (daysOld_at_least_5 now o d E) as Hd.
      case_bool_decide; case_decide; cbn; try lia; tauto.
    + case_decide as H; [|lia]. destruct H as (t & Ht & _).
      unfold daysOld in E. by rewrite Ht in E.
Qed.

(** X8: the statistics of the recycle bin give its size and, as expiring
    soon, the number of entries deleted five days ago or more (an entry
    without a deletion date is not counted); right after a cleanup these
    are the entries five days old or more that were deleted after the
    threshold of the cleanup, that is, on a host whose local clock did not
    change during the last seven days, the entries between five and seven
    days old. *)
Theorem recycleBinStats_counts tz now ok st :
  rs_total (recycleBinStats now st) = length (deletedOrders st) ∧
  rs_expiringSoon (recycleBinStats now st)
    = length (filter (five_days_old now) (deletedOrders st)) ∧
  (rs_expiringSoon (recycleBinStats now st) ≤ rs_total (recycleBinStats now st))%nat ∧
  rs_expiringSoon (recycleBinStats now (autoCleanupDeletedOrders tz now ok st))
    = length (filter (λ o, five_days_old now o
                           ∧ deleted_since (sevenDaysBefore tz now) o)
                (deletedOrders st)) ∧
  (sevenDaysBefore tz now = now - 7 * DAY_MS →
     rs_expiringSoon (recycleBinStats now (autoCleanupDeletedOrders tz now ok st))
       = length (filter (λ o, five_days_old now o ∧ younger_than_7_days now o)
                   (deletedOrders st))).
Proof.
  unfold recycleBinStats. cbn. rewrite !expiring_loop. cbn.
  destruct (autoCleanup_effect tz now ok st) as (-> & _).
  rewrite list_filter_filter.
  split_and!; [done|done|apply length_filter|done|].
  intros ->. f_equal. apply list_filter_iff. intros o.
  by rewrite deleted_since_plain_week.
Qed.

Lemma recycleBinStats_counts_witness :
  rs_expiringSoon
    (recycleBinStats (11 * DAY_MS)
       (autoCleanupDeletedOrders utc_zone (11 * DAY_MS) true two_in_bin_state))
    = length (filter (λ o, five_days_old (11 * DAY_MS) o
                           ∧ younger_than_7_days (11 * DAY_MS) o)
                (deletedOrders two_in_bin_state)).
Proof.
  apply (recycleBinStats_counts utc_zone (11 * DAY_MS) true two_in_bin_state).
  reflexivity.
Defined.

(** *** Dashboard *)

(** X9: the total of the dashboard is the sum of its five status counts
    and of the number of orders whose status is none of the five. *)
Theorem dashboardStats_partition now st :
  ds_total (dashboardStats now st) =
    (ds_received (dashboardStats now st) + ds_approved (dashboardStats now st)
     + ds_packed (dashboardStats now st) + ds_ready (dashboardStats now st)
     + ds_completed (dashboardStats now st)
     + length (filter (λ o, ¬ counted_status o) (orders st)))%nat.
Proof.
  unfold dashboardStats, count_status. cbn.
  induction (orders st) as [|o os IH]; [done|].
  rewrite !filter_cons. cbn [length]. rewrite IH. clear IH.
  unfold counted_status.
  repeat case_decide; cbn [length]; try lia;
    try (exfalso; intuition congruence).
Qed.

(** X10: a creation raises the total and the count of [received] by one,
    leaves the four other counts alone, and raises the count of today by
    one exactly when the dashboard is read on the day of the creation. *)
Theorem dashboardStats_after_createOrder now now' cn cp it pm sn st :
  let st' := (createOrder now cn cp it pm sn st).1 in
  ds_total (dashboardStats now' st') = S (ds_total (dashboardStats now' st)) ∧
  ds_received (dashboardStats now' st') = S (ds_received (dashboardStats now' st)) ∧
  ds_approved (dashboardStats now' st') = ds_approved (dashboardStats now' st) ∧
  ds_packed (dashboardStats now' st') = ds_packed (dashboardStats now' st) ∧
  ds_ready (dashboardStats now' st') = ds_ready (dashboardStats now' st) ∧
  ds_completed (dashboardStats now' st') = ds_completed (dashboardStats now' st) ∧
  (utc_day now = utc_day now' →
     ds_today (dashboardStats now' st') = S (ds_today (dashboardStats now' st))) ∧
  (utc_day now ≠ utc_day now' →
     ds_today (dashboardStats now' st') = ds_today (dashboardStats now' st)).
Proof.
  cbn. unfold count_status. rewrite !filter_app, !length_app.
  rewrite !filter_cons, !filter_nil. cbn.
  repeat case_decide; try done; cbn; split_and!; try lia; try done.
Qed.

Lemma dashboardStats_after_createOrder_witness :
  ds_today (dashboardStats 5
              (createOrder 4 (Some "Ravi") None None None None two_approvals_state).1)
    = S (ds_today (dashboardStats 5 two_approvals_state)).
Proof.
  destruct (dashboardStats_after_createOrder 4 5 (Some "Ravi") None None None None
              two_approvals_state) as (_ & _ & _ & _ & _ & _ & Htoday & _).
  apply Htoday. reflexivity.
Defined.

(** *** Reading one order *)

(** X11: reading back the number that a creation answers gives the new order
    when the number was not in the Order Store; when it was, it gives the
    older order that has the number; the other numbers read as before. *)
Theorem getOrder_after_createOrder now cn cp it pm sn st :
  let n := generateOrderNumber st in
  let st' := (createOrder now cn cp it pm sn st).1 in
  (n ∉ order_numbers (orders st) →
     ∃ o, getOrder n st' = Some o ∧ orders st' = orders st ++ [o] ∧
          created_from now cn cp it pm sn o) ∧
  (n ∈ order_numbers (orders st) →
     getOrder n st' = getOrder n st ∧ ∃ o, getOrder n st' = Some o ∧ o ∈ orders st) ∧
  (∀ m, m ≠ n → getOrder m st' = getOrder m st).
Proof.
  cbn zeta. unfold getOrder.
  destruct (createOrder_orders now cn cp it pm sn st) as (o & -> & Hn & Ho).
  split_and!.
  - intros Hfresh. exists o. split_and!; [|done..].
    by rewrite findIndex_snoc_fresh.
  - intros Hin. apply findIndex_is_Some in Hin as [[i o1] Hfind].
    unfold findIndex in *.
    rewrite (list_find_app_l _ _ _ _ _ Hfind), Hfind. split; [done|].
    exists o1. split; [done|].
    apply list_find_Some in Hfind as (Hi & _). by eapply list_elem_of_lookup_2.
  - intros m Hm. unfold findIndex.
    destruct (list_find _ (orders st)) as [[i o1]|] eqn:E.
    + by rewrite (list_find_app_l _ _ _ _ _ E).
    + rewrite list_find_app_r by done. cbn. rewrite decide_False; [done|].
      congruence.
Qed.

Lemma getOrder_after_createOrder_witness :
  ∃ o, getOrder (generateOrderNumber initial_state)
         (createOrder 1 (Some "Jane") None None None None initial_state).1 = Some o ∧
       customer_name o = Some "Jane".
Proof.
  destruct (proj1 (getOrder_after_createOrder 1 (Some "Jane") None None None None
                     initial_state)) as (o & Hget & _ & Hname & _).
  - apply not_elem_of_nil.
  - exists o. split; [exact Hget|exact Hname].
Defined.

(** X12: after a status update the order reads back with the new status and
    with the update as the last entry of its history; the other order
    numbers read as before. *)
Theorem getOrder_after_updateStatus now n s staff inv st i o :
  findIndex n (orders st) = Some (i, o) →
  let st' := (updateStatus now n s staff inv st).1 in
  (∃ o', getOrder n st' = Some o' ∧ status o' = s ∧
         last (status_history o') =
           Some {| h_status := s; h_timestamp := now; h_staff := staff |}) ∧
  (∀ m, m ≠ n → getOrder m st' = getOrder m st).
Proof.
  intros Hfind. cbn zeta. unfold getOrder.
  destruct (updateStatus_orders now n s staff inv st i o Hfind)
    as (o' & -> & Hn' & Hs & Hh).
  pose proof (findIndex_lookup _ _ _ _ Hfind) as [Hi Hn]. split.
  - rewrite (findIndex_insert n _ i o o') by congruence.
    exists o'. split_and!; [done..|]. by rewrite Hh, last_snoc.
  - intros m Hm. f_equal. apply findIndex_insert_ne with o; [done..|congruence].
Qed.

Lemma getOrder_after_updateStatus_witness :
  ∃ o', getOrder "WHS-001"
          (updateStatus 5 "WHS-001" (Some "packed") (Some "staff2") None
             two_approvals_state).1 = Some o' ∧
        status o' = Some "packed".
Proof.
  destruct (getOrder_after_updateStatus 5 "WHS-001" (Some "packed") (Some "staff2")
              None two_approvals_state 0%nat jane_order)
    as [(o' & Hget & Hst & _) _].
  - vm_compute. reflexivity.
  - exists o'. split; [exact Hget|exact Hst].
Defined.

(** *** Search with a status *)

(** X13: when every order has a name and a phone, the search returns, in
    store order, exactly the orders that match the text (any order for an
    empty or absent text) and the status (any order for an empty or absent
    status or for [all]). *)
Theorem searchOrders_text_and_status q status0 st :
  Forall has_contact (orders st) →
  searchOrders q status0 st =
    ROrders (filter (λ o, query_matches q o ∧ status_matches status0 o) (orders st)).
Proof.
  intros Hall. unfold searchOrders.
  assert ((if Js.truthy q
           then filter_throwing (search_match (Js.show q)) (orders st)
           else Some (orders st)) = Some (filter (query_matches q) (orders st))) as ->.
  { destruct q as [q|]; cbn.
    - destruct (decide (q = "")) as [->|Hq].
      + f_equal. symmetry. clear Hall. induction (orders st) as [|o os IH]; [done|].
        rewrite filter_cons_True by apply empty_query_matches. by rewrite IH.
      + rewrite (filter_throwing_total _ (search_matches q)); [done|].
        eapply Forall_impl; [exact Hall|]. intros o Ho. by apply search_match_spec.
    - f_equal. symmetry. clear Hall. induction (orders st) as [|o os IH]; [done|].
      by rewrite filter_cons_True, IH. }
  f_equal.
  destruct (Js.truthy status0) eqn:Et; cbn.
  - case_bool_decide as Hall'; cbn.
    + apply list_filter_iff. intros o. unfold status_matches. tauto.
    + rewrite list_filter_filter. apply list_filter_iff. intros o.
      unfold status_matches. split; [tauto|].
      intros [? [?|[?|?]]]; [congruence|done|done].
  - apply list_filter_iff. intros o. unfold status_matches. tauto.
Qed.

Lemma searchOrders_text_and_status_witness :
  searchOrders (Some "jan") (Some "received") two_approvals_state =
    ROrders (filter (λ o, query_matches (Some "jan") o
                          ∧ status_matches (Some "received") o)
               (orders two_approvals_state)).
Proof.
  apply (searchOrders_text_and_status (Some "jan") (Some "received")
           two_approvals_state).
  vm_compute. apply Forall_cons. split; [|apply Forall_nil_2].
  split; eexists; reflexivity.
Defined.

Lemma filter_throwing_throws {A} (f : A → option bool) (l : list A) x :
  x ∈ l → f x = None → filter_throwing f l = None.
Proof.
  induction 1 as [x l|x y l Hin IH]; intros Hx; cbn.
  - by rewrite Hx.
  - destruct (f y); [|done]. by rewrite IH.
Qed.

(** X14: a search for a non-empty text fails with a server error as soon as
    one order of the store has no customer name, or has no phone and does
    not match by name or number. *)
Theorem searchOrders_fails_on_incomplete_order q status0 st o :
  q ≠ "" → o ∈ orders st →
  customer_name o = None ∨
  (customer_phone o = None ∧ ¬ search_matches q o) →
  searchOrders (Some q) status0 st = RServerError.
Proof.
  intros Hq Hin Ho. unfold searchOrders. cbn. rewrite decide_False by done.
  rewrite (filter_throwing_throws _ _ o); [done..|].
  unfold search_match. destruct Ho as [->|[Hphone Hno]]; [done|].
  destruct (customer_name o) as [name|] eqn:Hname; [|done].
  destruct (Js.includes (Js.toLowerCase name) (Js.toLowerCase q)) eqn:E1.
  { destruct Hno. left. exists name. split; [done|]. by apply includes_spec. }
  destruct (Js.includes (Js.toLowerCase (order_number o)) (Js.toLowerCase q)) eqn:E2.
  { destruct Hno. right. left. by apply includes_spec. }
  by rewrite Hphone.
Qed.

Lemma searchOrders_fails_on_incomplete_order_witness :
  searchOrders (Some "jan") None nameless_state = RServerError.
Proof.
  eapply (searchOrders_fails_on_incomplete_order "jan" None nameless_state).
  - discriminate.
  - vm_compute. apply list_elem_of_here.
  - left. reflexivity.
Defined.

Section Lookup.
Implicit Types (s q : string) (o : order).

Lemma customerLookupMatch_spec q o :
  has_phone o →
  customerLookupMatch q o = Some (bool_decide (lookup_matches q o)).
Proof.
  intros [phone Hphone]. unfold customerLookupMatch.
  case_bool_decide as Hnum.
  { rewrite bool_decide_eq_true_2; [done|]. by left. }
  rewrite Hphone. f_equal.
  destruct (Js.includes phone q) eqn:E1; cbn.
  { apply includes_spec in E1. rewrite bool_decide_eq_true_2; [done|].
    right. exists phone. by split; [|left]. }
  destruct (Js.includes (Js.digits_only phone) (Js.digits_only q)) eqn:E2.
  { apply includes_spec in E2. rewrite bool_decide_eq_true_2; [done|].
    right. exists phone. by split; [|right]. }
  rewrite bool_decide_eq_false_2; [done|].
  unfold lookup_matches. rewrite Hphone.
  intros [?|(x & [= <-] & [H%includes_spec|H%includes_spec])]; congruence.
Qed.

Lemma find_throwing_total {A} (f : A → option bool) (P : A → Prop)
    `{!∀ x, Decision (P x)} (l : list A) :
  Forall (λ x, f x = Some (bool_decide (P x))) l →
  find_throwing f l = Some (snd <$> list_find P l).
Proof.
  induction 1 as [|x l Hx Hl IH]; [done|].
  cbn [find_throwing]. rewrite Hx. cbn. case_bool_decide; case_decide; try done.
  rewrite IH. by destruct (list_find P l) as [[??]|].
Qed.

Lemma trimStart_blank s : trimStart s = "" ↔ blank s = true.
Proof.
  induction s as [|c s IH]; cbn; [done|].
  destruct (is_space c); cbn; [done|]. split; discriminate.
Qed.

Lemma trimEnd_blank s : trimEnd s = "" ↔ blank s = true.
Proof.
  induction s as [|c s IH]; cbn; [done|].
  destruct (trimEnd s) as [|c' r] eqn:E.
  - destruct (is_space c); cbn; [|split; discriminate].
    split; [intros _; by apply IH|done].
  - split; [discriminate|]. intros [_ H%IH]%andb_prop. discriminate.
Qed.

Lemma blank_trimStart s : blank (trimStart s) = blank s.
Proof.
  induction s as [|c s IH]; cbn; [done|].
  destruct (is_space c) eqn:E; cbn; [done|]. by rewrite E.
Qed.

Lemma trim_blank s : trim s = "" ↔ blank s = true.
Proof. unfold trim. by rewrite trimEnd_blank, blank_trimStart. Qed.

Lemma truthy_trim raw :
  Js.truthy (trim <$> Some raw) = negb (blank raw).
Proof.
  cbn. case_decide as H.
  - apply trim_blank in H. by rewrite H.
  - destruct (blank raw) eqn:E; [|done]. by apply trim_blank in E.
Qed.
End Lookup.

(** X15: the customer lookup asks for a query, without searching or logging,
    exactly when the query is absent or is white space only. *)
Theorem customerLookup_no_query now q st :
  customerLookup now q st = (st, LookupNoQuery) ↔
  q = None ∨ ∃ raw, q = Some raw ∧ blank raw = true.
Proof.
  unfold customerLookup. destruct q as [raw|]; [|by split; [left|]].
  rewrite truthy_trim. destruct (blank raw) eqn:E; cbn [negb].
  - split; [|done]. intros _. right. by exists raw.
  - split.
    + destruct (find_throwing _ _) as [[o|]|]; intros [= ?].
    + intros [?|(raw' & [= <-] & ?)]; congruence.
Qed.

Lemma customerLookup_no_query_witness :
  customerLookup 9 (Some "   ") two_approvals_state
    = (two_approvals_state, LookupNoQuery).
Proof.
  apply (customerLookup_no_query 9 (Some "   ") two_approvals_state).
  right. exists "   ". split; reflexivity.
Defined.

(** X16: when every order has a phone, the customer lookup of a non-blank
    query answers with the public view of the first order of the store
    that matches the trimmed query (by number, by phone, or digits against
    digits) and logs the success, or answers not found and logs the
    failure; the stores are untouched. *)
Theorem customerLookup_first_match now raw st :
  blank raw = false →
  Forall has_phone (orders st) →
  customerLookup now (Some raw) st =
    match list_find (lookup_matches (trim raw)) (orders st) with
    | Some (_, o) =>
        (logAudit now "CUSTOMER_LOOKUP_SUCCESS" (order_number o) "CUSTOMER"
           ("Successful lookup: " +:+ trim raw) st,
         LookupFound (publicView o))
    | None =>
        (logAudit now "CUSTOMER_LOOKUP_FAILED" "N/A" "CUSTOMER"
           ("Failed lookup for: " +:+ trim raw) st,
         LookupNotFound)
    end.
Proof.
  intros Hraw Hall. unfold customerLookup. rewrite truthy_trim, Hraw. cbn.
  rewrite (find_throwing_total _ (lookup_matches (trim raw))).
  - by destruct (list_find _ _) as [[i o]|].
  - eapply Forall_impl; [exact Hall|]. intros o Ho. by apply customerLookupMatch_spec.
Qed.

Lemma customerLookup_first_match_witness :
  customerLookup 9 (Some " whs-001 ") two_approvals_state =
    match list_find (lookup_matches (trim " whs-001 ")) (orders two_approvals_state) with
    | Some (_, o) =>
        (logAudit 9 "CUSTOMER_LOOKUP_SUCCESS" (order_number o) "CUSTOMER"
           ("Successful lookup: " +:+ trim " whs-001 ") two_approvals_state,
         LookupFound (publicView o))
    | None =>
        (logAudit 9 "CUSTOMER_LOOKUP_FAILED" "N/A" "CUSTOMER"
           ("Failed lookup for: " +:+ trim " whs-001 ") two_approvals_state,
         LookupNotFound)
    end.
Proof.
  apply (customerLookup_first_match 9 " whs-001 " two_approvals_state).
  - reflexivity.
  - vm_compute. apply Forall_cons. split; [|apply Forall_nil_2].
    eexists. reflexivity.
Defined.

(** X17: the customer lookup answers with the first order of the store
    whenever the digits of the query occur in the digits of the phone of
    that order; a query without any digit always does. *)
Theorem customerLookup_digits_of_first_order now raw st o rest phone :
  blank raw = false →
  orders st = o :: rest →
  customer_phone o = Some phone →
  Js.digits_only (trim raw) = "" ∨
  substring (Js.digits_only (trim raw)) (Js.digits_only phone) →
  (customerLookup now (Some raw) st).2 = LookupFound (publicView o).
Proof.
  intros Hraw Ho Hphone Hdigits.
  assert (substring (Js.digits_only (trim raw)) (Js.digits_only phone)) as Hsub.
  { destruct Hdigits as [->|?]; [|done]. by exists "", (Js.digits_only phone). }
  clear Hdigits. unfold customerLookup.
  rewrite truthy_trim, Hraw, Ho. cbn.
  rewrite customerLookupMatch_spec by by eexists.
  rewrite bool_decide_eq_true_2; [done|].
  right. exists phone. by split; [|right].
Qed.

Lemma customerLookup_digits_of_first_order_witness :
  (customerLookup 9 (Some "hello") two_approvals_state).2
    = LookupFound (publicView jane_order).
Proof.
  apply (customerLookup_digits_of_first_order 9 "hello" two_approvals_state
           jane_order [] "0771234567").
  - reflexivity.
  - vm_compute. reflexivity.
  - reflexivity.
  - left. reflexivity.
Defined.

(** X18: the lookup of the original server, without a query, answers not
    found on an empty store and fails with a server error otherwise; with
    the empty query it answers with the first order, when that order has a
    phone. *)
Theorem trackingLookup_edge_queries st :
  (orders st = [] → trackingLookup None st = TrackingNotFound) ∧
  (orders st ≠ [] → trackingLookup None st = TrackingServerError) ∧
  (∀ o rest, orders st = o :: rest → has_phone o →
     trackingLookup (Some "") st = TrackingFound (trackingView o)).
Proof.
  unfold trackingLookup. split_and!.
  - by intros ->.
  - by destruct (orders st).
  - intros o rest -> [phone Hphone]. cbn. rewrite Hphone.
    assert (Js.includes phone "" = true) as ->
      by (apply includes_spec; by exists "", phone).
    by case_bool_decide.
Qed.

Lemma trackingLookup_edge_queries_witness :
  trackingLookup None initial_state = TrackingNotFound ∧
  trackingLookup None two_approvals_state = TrackingServerError ∧
  trackingLookup (Some "") two_approvals_state
    = TrackingFound (trackingView jane_order).
Proof.
  split_and!.
  - apply (proj1 (trackingLookup_edge_queries initial_state)). reflexivity.
  - apply (proj1 (proj2 (trackingLookup_edge_queries two_approvals_state))).
    vm_compute. discriminate.
  - apply (proj2 (proj2 (trackingLookup_edge_queries two_approvals_state))
             jane_order []).
    + vm_compute. reflexivity.
    + eexists. reflexivity.
Defined.

Section DateNumbers.
Implicit Types (s d r : string) (os : list order).

Lemma all_digits_app s r :
  all_digits (s +:+ r) = all_digits s && all_digits r.
Proof. induction s as [|c s IH]; simpl; [done|]. by rewrite IH, andb_assoc. Qed.

Lemma pretty_N_char_digit x : Js.is_digit (pretty_N_char x) = true.
Proof. unfold pretty_N_char. by repeat case_match. Qed.

Lemma pretty_N_go_digits x : ∀ s,
  all_digits s = true → all_digits (pretty_N_go x s) = true.
Proof.
  induction (N.lt_wf_0 x) as [x _ IH]; intros s Hs.
  destruct (decide (0 < x)%N) as [Hx|Hx].
  - rewrite pretty_N_go_step by done. apply IH.
    + by apply N.div_lt.
    + cbn. by rewrite pretty_N_char_digit, Hs.
  - assert (x = 0%N) as -> by lia. by rewrite pretty_N_go_0.
Qed.

Lemma String_of_nat_digits n : all_digits (Js.String_of_nat n) = true.
Proof.
  unfold Js.String_of_nat, pretty, pretty_nat, pretty, pretty_N.
  case_decide; [done|]. by apply pretty_N_go_digits.
Qed.

Lemma repeat_zero_digits k : all_digits (Js.repeat_char "0" k) = true.
Proof. induction k; [done|]. cbn. done. Qed.

Lemma padStart_digits n w : all_digits (Js.padStart (Js.String_of_nat n) w "0") = true.
Proof.
  unfold Js.padStart.
  by rewrite all_digits_app, repeat_zero_digits, String_of_nat_digits.
Qed.

Lemma padStart_zero_inj w m n :
  (0 < m)%nat → (0 < n)%nat →
  Js.padStart (Js.String_of_nat m) w "0" = Js.padStart (Js.String_of_nat n) w "0" →
  m = n.
Proof.
  intros Hm Hn. unfold Js.padStart.
  destruct (String_of_nat_head m Hm) as (c1 & r1 & E1 & H1).
  destruct (String_of_nat_head n Hn) as (c2 & r2 & E2 & H2).
  intros H. eapply repeat_zero_inj in H; [|done..].
  by apply (inj pretty) in H.
Qed.

(** A run of digits ends at the first dash. *)
Lemma digits_dash_inj d1 : ∀ d2 r1 r2,
  all_digits d1 = true → all_digits d2 = true →
  d1 +:+ String "-" r1 = d2 +:+ String "-" r2 → d1 = d2 ∧ r1 = r2.
Proof.
  induction d1 as [|c d1 IH]; intros [|c' d2] r1 r2 H1 H2 H.
  - by injection H as ->.
  - injection H as <- _. done.
  - injection H as -> _. done.
  - apply andb_prop in H1 as [_ H1]. apply andb_prop in H2 as [_ H2].
    injection H as -> H. destruct (IH _ _ _ H1 H2 H) as [-> ->]. done.
Qed.

Lemma startsWith_app s r : Js.startsWith (s +:+ r) s = true.
Proof. apply startsWith_spec. by exists r. Qed.

Lemma numbered_with_snoc code os o :
  numbered_with code (os ++ [o]) =
    (numbered_with code os + if Js.startsWith (order_number o) code then 1 else 0)%nat.
Proof.
  unfold numbered_with. rewrite filter_app, length_app, filter_cons, filter_nil.
  case_decide as H; destruct (Js.startsWith (order_number o) code); done.
Qed.

Lemma date_numbered_snoc os o x :
  date_numbered os o → date_numbered (os ++ [x]) o.
Proof.
  intros (d & j & Hn & Hd & Hj). exists d, j. split_and!; [done..|lia|].
  rewrite numbered_with_snoc. lia.
Qed.

Lemma generateOrderNumber_date_code day month :
  all_digits
    (Js.String_of_nat day +:+ Js.padStart (Js.String_of_nat month) 2 "0") = true.
Proof. by rewrite all_digits_app, String_of_nat_digits, padStart_digits. Qed.

Lemma original_createOrder_numbering now day month cn cp it pm sn st :
  date_numbering (orders st) →
  date_numbering (orders (Original.createOrder now day month cn cp it pm sn st).1).
Proof.
  intros [Hnd Hall].
  set (d := Js.String_of_nat day +:+ Js.padStart (Js.String_of_nat month) 2 "0").
  set (k := numbered_with ("WHS-" +:+ d) (orders st)).
  assert (Hgen : Original.generateOrderNumber day month st =
            "WHS-" +:+ d +:+ "-" +:+ Js.padStart (Js.String_of_nat (S k)) 2 "0").
  { unfold Original.generateOrderNumber. fold d. unfold k, numbered_with.
    by rewrite Nat.add_1_r. }
  assert (∃ o, orders (Original.createOrder now day month cn cp it pm sn st).1
                 = orders st ++ [o] ∧
               order_number o = Original.generateOrderNumber day month st)
    as (o & -> & Ho) by (by eexists).
  rewrite Hgen in Ho.
  assert (Hd : all_digits d = true) by apply generateOrderNumber_date_code.
  split.
  - unfold order_numbers. rewrite fmap_app. cbn.
    apply NoDup_app. split_and!; [done| |apply NoDup_singleton].
    intros n Hn ->%list_elem_of_singleton.
    apply list_elem_of_fmap in Hn as (x & Hx & Hin).
    rewrite Forall_forall in Hall.
    destruct (Hall x Hin) as (d' & j & Hxn & Hd' & Hj).
    rewrite Ho, Hxn in Hx. injection Hx as Hx.
    destruct (digits_dash_inj d d' (Js.padStart (Js.String_of_nat (S k)) 2 "0")
                (Js.padStart (Js.String_of_nat j) 2 "0") Hd Hd' Hx) as [<- Hseq].
    apply padStart_zero_inj in Hseq; [|lia..]. fold k in Hj. lia.
  - apply Forall_app. split.
    + eapply Forall_impl; [exact Hall|]. intros x. apply date_numbered_snoc.
    + apply Forall_singleton. exists d, (S k). split_and!; [done..|lia|].
      rewrite numbered_with_snoc. fold k. rewrite Ho.
      replace ("WHS-" +:+ d +:+ "-" +:+ Js.padStart (Js.String_of_nat (S k)) 2 "0")
        with (("WHS-" +:+ d) +:+ "-" +:+ Js.padStart (Js.String_of_nat (S k)) 2 "0")
        by done.
      rewrite startsWith_app. lia.
Qed.
End DateNumbers.

(** X19: in the original server, whose orders are only created, the
    date-coded order numbers stay pairwise distinct, whatever the dates of
    the creations. *)
Theorem original_numbers_stay_distinct cs : ∀ st,
  date_numbering (orders st) →
  date_numbering (orders (original_creations cs st)) ∧
  NoDup (order_numbers (orders (original_creations cs st))).
Proof.
  induction cs as [|c cs IH]; intros st Hst; cbn.
  - split; [done|]. by destruct Hst.
  - apply IH. by apply original_createOrder_numbering.
Qed.

Lemma original_numbers_stay_distinct_witness :
  NoDup (order_numbers (orders (original_creations
    [{| c_now := 1; c_day := 11; c_month := 10; c_customerName := Some "Jane";
        c_customerPhone := None; c_items := None; c_paymentMethod := None;
        c_staffName := None |};
     {| c_now := 2; c_day := 1; c_month := 11; c_customerName := Some "Ravi";
        c_customerPhone := None; c_items := None; c_paymentMethod := None;
        c_staffName := None |}] initial_state))).
Proof.
  apply (original_numbers_stay_distinct
    [{| c_now := 1; c_day := 11; c_month := 10; c_customerName := Some "Jane";
        c_customerPhone := None; c_items := None; c_paymentMethod := None;
        c_staffName := None |};
     {| c_now := 2; c_day := 1; c_month := 11; c_customerName := Some "Ravi";
        c_customerPhone := None; c_items := None; c_paymentMethod := None;
        c_staffName := None |}] initial_state).
  split; [apply NoDup_nil_2|apply Forall_nil_2].
Defined.

Lemma permanentlyDelete_found_full now disk_ok n staffName st i e :
  findIndex n (deletedOrders st) = Some (i, e) →
  orders (permanentlyDelete now disk_ok n staffName st).1 = orders st ∧
  deletedOrders (permanentlyDelete now disk_ok n staffName st).1
    = delete i (deletedOrders st) ∧
  exportsDir (permanentlyDelete now disk_ok n staffName st).1
    = (if disk_ok
       then <[exportFilename now e := exportData now e]> (exportsDir st)
       else exportsDir st) ∧
  (permanentlyDelete now disk_ok n staffName st).2
    = RExportedTo (if disk_ok then Some (exportFilename now e) else None).
Proof.
  intros Hfind. unfold permanentlyDelete, exportOrderData. rewrite Hfind.
  by destruct disk_ok.
Qed.

Lemma order_numbers_delete_fresh (os : list order) i o :
  NoDup (order_numbers os) → os !! i = Some o →
  order_number o ∉ order_numbers (delete i os).
Proof.
  intros Hnd Hi. unfold order_numbers in *.
  rewrite (delete_Permutation os i o Hi) in Hnd. cbn in Hnd.
  by apply NoDup_cons in Hnd as [? _].
Qed.

(** X20: a soft delete followed by a permanent delete of the same number
    removes the order from the Order Store and leaves the recycle bin as it
    was, whether or not the export can be written.  When it cannot, the
    answer carries no export reference and the exports directory is
    untouched; when it can, the answer names a file of the exports
    directory, no other file is touched, and that file holds the order as
    it stood in the bin (its data, status [deleted], the status before the
    deletion, the time of the deletion) with the reason
    [permanent_deletion].  When the numbers of the Order Store were
    distinct the number is then in neither store. *)
Theorem softDelete_then_permanentlyDelete now1 now2 disk_ok n staff1 staff2 st i o :
  findIndex n (orders st) = Some (i, o) →
  n ∉ order_numbers (deletedOrders st) →
  let st1 := (softDelete now1 n staff1 st).1 in
  let st2 := (permanentlyDelete now2 disk_ok n staff2 st1).1 in
  orders st2 = delete i (orders st) ∧
  deletedOrders st2 = deletedOrders st ∧
  (disk_ok = false →
     (permanentlyDelete now2 disk_ok n staff2 st1).2 = RExportedTo None ∧
     exportsDir st2 = exportsDir st) ∧
  (disk_ok = true →
     ∃ name file,
       (permanentlyDelete now2 disk_ok n staff2 st1).2 = RExportedTo (Some name) ∧
       exportsDir st2 !! name = Some file ∧
       (∀ other, other ≠ name → exportsDir st2 !! other = exportsDir st !! other) ∧
       same_order_data o (ex_order file) ∧
       status (ex_order file) = Some "deleted" ∧
       original_status (ex_order file) = status o ∧
       deleted_at (ex_order file) = Some now1 ∧
       ex_export_reason file = "permanent_deletion") ∧
  (NoDup (order_numbers (orders st)) →
     (n ∉ order_numbers (orders st2)) ∧ (n ∉ order_numbers (deletedOrders st2))).
Proof.
  intros Hfind Hfresh. cbn zeta.
  rewrite (softDelete_found _ _ _ _ _ _ Hfind). cbn [fst].
  pose proof (findIndex_lookup _ _ _ _ Hfind) as [Hi Hn].
  match goal with
  | |- context [permanentlyDelete _ _ _ _ ?s] =>
      destruct (permanentlyDelete_found_full now2 disk_ok n staff2 s
                  (length (deletedOrders st))
                  (set_status (Some "deleted")
                     (set_deletion (Some now1)
                        (Some (Js.or_default staff1 "manager")) (status o) o)))
        as (Ho & Hd & He & Hr)
  end.
  { cbn. by apply findIndex_snoc_fresh. }
  rewrite Ho, Hd, He, Hr. cbn. rewrite delete_length_snoc.
  split_and!; [done|done| | |].
  - by intros ->.
  - intros ->. eexists _, _. split_and!; [reflexivity|apply lookup_insert_eq| |..].
    + intros other Hother. by apply lookup_insert_ne.
    + by repeat split.
    + done.
    + done.
    + done.
    + done.
  - intros Hnd. split; [|done]. rewrite <- Hn.
    by apply order_numbers_delete_fresh.
Qed.

Lemma softDelete_then_permanentlyDelete_witness :
  ∃ name file,
    exportsDir (permanentlyDelete 5 true "WHS-001" None
                  (softDelete 4 "WHS-001" (Some "manager") two_approvals_state).1).1
      !! name = Some file ∧
    same_order_data jane_order (ex_order file) ∧
    status (ex_order file) = Some "deleted".
Proof.
  destruct (softDelete_then_permanentlyDelete 4 5 true "WHS-001" (Some "manager")
              None two_approvals_state 0%nat jane_order) as (_ & _ & _ & Hfile & _).
  - vm_compute. reflexivity.
  - vm_compute. apply not_elem_of_nil.
  - destruct (Hfile eq_refl) as (name & file & _ & Hlook & _ & Hdata & Hst & _).
    exists name, file. split_and!; [exact Hlook|exact Hdata|exact Hst].
Defined.
